(** * Market-data anomaly detection: detectors, adapters and alerting

    A shallow embedding of the detection core of the repository:

    - [MissingDataDetector.detect]
      (python-services/detection-engine/src/algorithms/missing_data_detector.py)
    - [PriceMovementDetector.detect]
      (python-services/detection-engine/src/algorithms/price_movement_detector.py)
    - [AnomalyMLModel] and [TimeSeriesAnomalyModel]
      (python-services/ml-models/src/anomaly_ml_model.py)
    - [BaseDataAdapter], [GemfireAdapter], [MSSQLAdapter], [DataSourceManager]
      (src/adapters/)
    - [AlertRule] (src/models/data_models.py), with the rule engine that
      evaluates it modelled from section 4.4 of the specification

    Conventions.  A timestamp is an integer number of microseconds since the
    epoch (the resolution of [datetime] and of pandas timestamps).  Python
    floats are idealised as exact rationals ([Q]); the two IEEE values that
    the detectors can produce besides ordinary numbers, infinity and NaN,
    are modelled explicitly where a division by zero can reach them.  The
    wall-clock field [detected_at] and the formatted [description] string of
    an anomaly carry no decision and are left out of the anomaly records. *)

From Stdlib Require Import Reals Qreals Lra.
From Stdlib Require Import List ZArith QArith Qabs Lia Bool String.
Open Scope string_scope.
Open Scope Q_scope.
Open Scope list_scope.
From Stdlib Require Import Permutation Sorting.Sorted Psatz.
Import ListNotations.

Set Implicit Arguments.

(** ** Shared value types *)

Inductive Severity := low | medium | high | critical.

Inductive AnomalyType :=
  missing_data | price_movement | data_stale | volume_spike | data_quality
| ml_detected | price_zscore | volume_zscore.

(** A data point as the detection services receive it: a dict with the keys
    ['symbol'], ['timestamp'], ['price'] and ['volume']. *)
Record DataPoint := mkPoint {
  symbol : string;
  timestamp : Z;
  price : Q;
  volume : Q
}.

Definition Qgtb (x y : Q) : bool := negb (Qle_bool x y).

(** ** pandas helpers *)

(** [Series.unique()]: the distinct values in order of first appearance. *)
Fixpoint unique (l : list string) : list string :=
  match l with
  | [] => []
  | x :: r => x :: filter (fun y => negb (String.eqb y x)) (unique r)
  end.

(** [df[df['symbol'] == s]] *)
Definition rows_of (s : string) (df : list DataPoint) : list DataPoint :=
  filter (fun d => String.eqb (symbol d) s) df.

Definition by_time (a b : DataPoint) : Prop := (timestamp a <= timestamp b)%Z.

(** [sort_values('timestamp')] uses an unstable sort by default, so the order
    among rows with equal timestamps is not fixed by pandas.  The detectors
    are therefore modelled over any function [sort_values] on frames; the
    theorems assume of it only that it returns its argument rearranged into
    non-decreasing timestamp order.  [isort] is a stable instance (insertion
    sort, which is also what the default sort runs on short frames). *)
Fixpoint insert_row (d : DataPoint) (l : list DataPoint) : list DataPoint :=
  match l with
  | [] => [d]
  | e :: r => if (timestamp d <=? timestamp e)%Z then d :: e :: r
              else e :: insert_row d r
  end.

Fixpoint isort (l : list DataPoint) : list DataPoint :=
  match l with
  | [] => []
  | d :: r => insert_row d (isort r)
  end.

(** Pairs of neighbours of a sequence: [(l[0], l[1]); (l[1], l[2]); ...]. *)
Definition adjacent {A} (l : list A) : list (A * A) := combine l (tl l).

(** Sample data used to exercise the definitions: the scenarios of the
    detection-engine tests. *)
Module Sample.
Definition t0 : Z := 1700000000000000.
Definition minute : Z := 60000000.
Definition hours (n : Z) : Z := n * 60 * minute.
Definition pt (s : string) (t : Z) (p : Q) : DataPoint := mkPoint s t p 1000.

  (** test_missing_data_detected: two AAPL points two hours apart, given
      newest first, and one point of another symbol. *)
Definition gap_points : list DataPoint :=
    [ pt "AAPL" (t0 + hours 2) 150; pt "MSFT" t0 300; pt "AAPL" t0 149 ].

  (** test_abnormal_price_movement: 150 then 160. *)
Definition jump_points : list DataPoint :=
    [ pt "AAPL" t0 150; pt "AAPL" (t0 + minute) 160 ].

(** A flat series of [n] points at price 100 and volume 1000, one minute
    apart, followed by one spike. *)
Definition flat_then_spike (n : nat) (spike : Q) : list DataPoint :=
  map (fun i => mkPoint "AAPL" (t0 + Z.of_nat i * minute) 100 1000) (seq 0 n)
  ++ [ mkPoint "AAPL" (t0 + Z.of_nat n * minute) spike 1000 ].
End Sample.

(** ** MissingDataDetector *)

Module MissingData.

Record Anomaly := mkAnomaly {
    a_symbol : string;
    anomaly_type : AnomalyType;
    severity : Severity;
    (* details *)
    d_gap_minutes : Q;
    d_threshold_minutes : Z;
    last_data_time : Z;
    next_data_time : Z
  }.

  (** [(current_time - previous_time).total_seconds() / 60] *)
Definition gap_minutes (current_time previous_time : Z) : Q :=
    inject_Z (current_time - previous_time) / 1000000 / 60.

Section Detector.
Variable sort_values : list DataPoint -> list DataPoint.
Variable threshold_minutes : Z.

    (** Body of the loop over [i]: compares rows [i] and [i-1] of the sorted
        frame of one symbol. *)
Definition check_gap (sym : string) (symbol_data : list DataPoint)
        (i : nat) : list Anomaly :=
      match nth_error symbol_data i, nth_error symbol_data (i - 1) with
      | Some cur, Some prev =>
          let current_time := timestamp cur in
          let previous_time := timestamp prev in
          let gap := gap_minutes current_time previous_time in
          if Qgtb gap (inject_Z threshold_minutes) then
            [ {| a_symbol := sym;
                 anomaly_type := missing_data;
                 severity :=
                   if Qgtb gap (inject_Z (threshold_minutes * 2))
                   then high else medium;
                 d_gap_minutes := gap;
                 d_threshold_minutes := threshold_minutes;
                 last_data_time := previous_time;
                 next_data_time := current_time |} ]
          else []
      | _, _ => []   (* [iloc] out of range: not reached for 1 <= i < len *)
      end.

Definition detect_symbol (df : list DataPoint) (sym : string)
        : list Anomaly :=
      let symbol_data := sort_values (rows_of sym df) in
      flat_map (check_gap sym symbol_data)
               (seq 1 (List.length symbol_data - 1)).   (* range(1, len) *)

Definition detect (data_points : list DataPoint) : list Anomaly :=
      match data_points with
      | [] => []
      | _ => flat_map (detect_symbol data_points)
                      (unique (map symbol data_points))
      end.
End Detector.

  (** What the detector is expected to report for one symbol, read off a
      pair of neighbouring timestamps [(previous, current)]. *)
Definition gap_exceeds (threshold_minutes : Z) (pc : Z * Z) : bool :=
    Qgtb (gap_minutes (snd pc) (fst pc)) (inject_Z threshold_minutes).

Definition gap_anomaly (threshold_minutes : Z) (sym : string)
      (pc : Z * Z) : Anomaly :=
    let gap := gap_minutes (snd pc) (fst pc) in
    {| a_symbol := sym;
       anomaly_type := missing_data;
       severity := if Qgtb gap (2 * inject_Z threshold_minutes)
                   then high else medium;
       d_gap_minutes := gap;
       d_threshold_minutes := threshold_minutes;
       last_data_time := fst pc;
       next_data_time := snd pc |}.

  (** The anomalies of an output that concern one symbol. *)
Definition reported (sym : string) (out : list Anomaly) : list Anomaly :=
    filter (fun a => String.eqb (a_symbol a) sym) out.

End MissingData.

(** ** PriceMovementDetector *)

(** The value of a float expression that may divide by zero. *)
Inductive xfloat := Fin (q : Q) | Inf | NaN.

Module PriceMovement.

Record Anomaly := mkAnomaly {
    a_symbol : string;
    anomaly_type : AnomalyType;
    severity : Severity;
    (* details *)
    price_change_percent : xfloat;
    d_threshold_percent : Q;
    current_price : Q;
    d_timestamp : Z
  }.

  (** One entry of [price.pct_change() * 100]: [cur / prev - 1], times 100.
      A zero previous price gives NaN for 0/0 and an infinity otherwise
      (only its absolute value is used, so the sign is not kept). *)
Definition pct_change_100 (prev cur : Q) : xfloat :=
    if Qeq_bool prev 0 then
      if Qeq_bool cur 0 then NaN else Inf
    else Fin ((cur / prev - 1) * 100).

  (** The column [price_change]: NaN in the first row. *)
Fixpoint price_change_from (prev : Q) (rows : list DataPoint)
      : list (DataPoint * xfloat) :=
    match rows with
    | [] => []
    | r :: rest => (r, pct_change_100 prev (price r))
                   :: price_change_from (price r) rest
    end.

Definition with_price_change (rows : list DataPoint)
      : list (DataPoint * xfloat) :=
    match rows with
    | [] => []
    | r :: rest => (r, NaN) :: price_change_from (price r) rest
    end.

  (** [abs(x) > t] on floats; false on NaN, true on an infinity. *)
Definition abs_gt (x : xfloat) (t : Q) : bool :=
    match x with
    | Fin q => Qgtb (Qabs q) t
    | Inf => true
    | NaN => false
    end.

Section Detector.
Variable sort_values : list DataPoint -> list DataPoint.
Variable threshold_percent : Q.

    (** Body of the loop over the rows of one symbol. *)
Definition check_row (sym : string) (row : DataPoint * xfloat)
        : list Anomaly :=
      let '(r, change) := row in
      match change with
      | NaN => []                                   (* pd.isna: continue *)
      | _ =>
          if abs_gt change threshold_percent then
            [ {| a_symbol := sym;
                 anomaly_type := price_movement;
                 severity := if abs_gt change (threshold_percent * 2)
                             then critical else high;
                 price_change_percent := change;
                 d_threshold_percent := threshold_percent;
                 current_price := price r;
                 d_timestamp := timestamp r |} ]
          else []
      end.

Definition detect_symbol (df : list DataPoint) (sym : string)
        : list Anomaly :=
      let symbol_data := sort_values (rows_of sym df) in
      if (List.length symbol_data <? 2)%nat then []      (* continue *)
      else flat_map (check_row sym) (with_price_change symbol_data).

Definition detect (data_points : list DataPoint) : list Anomaly :=
      match data_points with
      | [] => []
      | _ => flat_map (detect_symbol data_points)
                      (unique (map symbol data_points))
      end.
End Detector.

  (** The percent change as the specification writes it. *)
Definition percent_change (prev cur : Q) : Q := (cur - prev) / prev * 100.

  (** What the detector is expected to report for row [i] of the sorted
      frame [rows] of a symbol, from the specification's formula. *)
Definition expected_at (threshold_percent : Q) (sym : string)
      (rows : list DataPoint) (i : nat) : list Anomaly :=
    match nth_error rows i, nth_error rows (i - 1) with
    | Some cur, Some prev =>
        let change := percent_change (price prev) (price cur) in
        if Qgtb (Qabs change) threshold_percent then
          [ {| a_symbol := sym;
               anomaly_type := price_movement;
               severity := if Qgtb (Qabs change) (2 * threshold_percent)
                           then critical else high;
               price_change_percent :=
                 Fin ((price cur / price prev - 1) * 100);
               d_threshold_percent := threshold_percent;
               current_price := price cur;
               d_timestamp := timestamp cur |} ]
        else []
    | _, _ => []
    end.

Definition reported (sym : string) (out : list Anomaly) : list Anomaly :=
    filter (fun a => String.eqb (a_symbol a) sym) out.

End PriceMovement.

(** ** Exceptions *)

(** The outcome of a call that may raise: a value, or the exception. *)
Inductive result (A : Type) :=
| Return (a : A)
| Raised (e : string).
Arguments Return {A} a.
Arguments Raised {A} e.

Definition bind {A B} (r : result A) (k : A -> result B) : result B :=
  match r with
  | Return a => k a
  | Raised e => Raised e
  end.

Notation "x <- c ;; k" := (bind c (fun x => k))
  (at level 61, c at next level, right associativity).

(** [try: body  except Exception: return default] *)
Definition try_except {A} (body : result A) (default : A) : result A :=
  match body with
  | Return a => Return a
  | Raised _ => Return default
  end.

(** ** TimeSeriesAnomalyModel *)

Module TimeSeries.

(** The z-score [(x - mean) / std] of one row.  The standard deviation is a
    square root, so the score is kept as its numerator and the variance
    (the square of the denominator); [ZNaN] when a rolling statistic is
    undefined or the quotient is 0/0, [ZInf] for a non-zero numerator over a
    zero deviation. *)
Inductive zscore :=
| ZNaN
| ZInf
| ZRatio (num var : Q).

Record Anomaly := mkAnomaly {
  a_symbol : string;
  anomaly_type : AnomalyType;
  severity : Severity;
  data_timestamp : Z;
  (* details *)
  z_score : zscore;
  value : Q;
  rolling_mean : option Q;
  rolling_var : option Q;      (* rolling_std squared *)
  d_window_size : nat
}.

Definition Qsum (l : list Q) : Q := fold_right Qplus 0 l.

Definition of_nat (n : nat) : Q := inject_Z (Z.of_nat n).

(** Mean of a window; NaN for an empty one. *)
Definition mean (win : list Q) : option Q :=
  match win with
  | [] => None
  | _ => Some (Qsum win / of_nat (List.length win))
  end.

(** Sample variance of a window (pandas uses [ddof=1]); NaN when the window
    has fewer than two values. *)
Definition var (win : list Q) : option Q :=
  match mean win with
  | Some m =>
      if (List.length win <=? 1)%nat then None
      else Some (Qsum (map (fun x => (x - m) * (x - m)) win)
                 / of_nat (List.length win - 1))
  | None => None
  end.

(** The [w] values of a column that end at row [idx]. *)
Definition trailing (w : nat) (col : list Q) (idx : nat) : list Q :=
  firstn w (skipn (idx + 1 - w) col).

(** [col.rolling(window=w).stat()]: NaN until [w] values are available. *)
Definition rolling {A} (stat : list Q -> option A) (w : nat) (col : list Q)
    : list (option A) :=
  map (fun idx => if (w <=? idx + 1)%nat then stat (trailing w col idx)
                  else None)
      (seq 0 (List.length col)).

(** [(x - mean) / std] on floats. *)
Definition zdiv (x : Q) (m v : option Q) : zscore :=
  match m, v with
  | Some m, Some v =>
      if Qeq_bool v 0 then
        if Qeq_bool (x - m) 0 then ZNaN else ZInf
      else ZRatio (x - m) v
  | _, _ => ZNaN
  end.

(** [abs(z) > k] for a non-negative constant [k]: with a positive variance
    [v], [|n| / sqrt v > k] amounts to [n * n > k * k * v]. *)
Definition zabs_gt (z : zscore) (k : Q) : bool :=
  match z with
  | ZNaN => false
  | ZInf => true
  | ZRatio n v => Qgtb (n * n) (k * k * v)
  end.

Section Model.
Variable sort_values : list DataPoint -> list DataPoint.
Variable window_size : nat.

Definition _detect_zscore_anomalies (data : list DataPoint)
    (column : DataPoint -> Q) (sym : string) (ty : AnomalyType)
    : list Anomaly :=
  let col := map column data in
  let rolling_means := rolling mean window_size col in
  let rolling_vars := rolling var window_size col in
  let z_scores :=
    map (fun xmv => zdiv (fst xmv) (fst (snd xmv)) (snd (snd xmv)))
        (combine col (combine rolling_means rolling_vars)) in
  let anomaly_threshold := 3 in
  (* np.where(np.abs(z_scores) > anomaly_threshold)[0] *)
  let anomaly_indices :=
    filter (fun idx => zabs_gt (nth idx z_scores ZNaN) anomaly_threshold)
           (seq 0 (List.length z_scores)) in
  flat_map
    (fun idx =>
       if (window_size <=? idx)%nat then     (* enough history *)
         match nth_error z_scores idx, nth_error data idx with
         | Some z, Some data_point =>
             [ {| a_symbol := sym;
                  anomaly_type := ty;
                  severity := if zabs_gt z 4 then critical else high;
                  data_timestamp := timestamp data_point;
                  z_score := z;
                  value := column data_point;
                  rolling_mean := nth idx rolling_means None;
                  rolling_var := nth idx rolling_vars None;
                  d_window_size := window_size |} ]
         | _, _ => []                         (* [iloc] out of range *)
         end
       else [])
    anomaly_indices.

Definition detect_symbol (df : list DataPoint) (sym : string)
    : list Anomaly :=
  let symbol_data := sort_values (rows_of sym df) in
  if (List.length symbol_data <? window_size)%nat then []   (* continue *)
  else
    _detect_zscore_anomalies symbol_data price sym price_zscore
    (* every point carries 'volume', so the column is in the frame *)
    ++ _detect_zscore_anomalies symbol_data volume sym volume_zscore.

(** There is no guard for an empty input here: [df['symbol']] on the empty
    frame raises [KeyError]. *)
Definition detect_time_series_anomalies (data_points : list DataPoint)
    : result (list Anomaly) :=
  match data_points with
  | [] => Raised "KeyError: 'symbol'"
  | _ => Return (flat_map (detect_symbol data_points)
                          (unique (map symbol data_points)))
  end.
End Model.

(** What the detector is expected to report for row [idx] of the sorted
    frame [rows] of a symbol and one column, from the specification: the
    row needs [window_size] rows before it, and its value must lie more
    than three deviations from the mean of the trailing window. *)
Definition expected_at (window_size : nat) (sym : string)
    (rows : list DataPoint) (column : DataPoint -> Q) (ty : AnomalyType)
    (idx : nat) : list Anomaly :=
  match nth_error rows idx with
  | Some d =>
      let win := trailing window_size (map column rows) idx in
      let z := zdiv (column d) (mean win) (var win) in
      if (window_size <=? idx)%nat && zabs_gt z 3 then
        [ {| a_symbol := sym;
             anomaly_type := ty;
             severity := if zabs_gt z 4 then critical else high;
             data_timestamp := timestamp d;
             z_score := z;
             value := column d;
             rolling_mean := mean win;
             rolling_var := var win;
             d_window_size := window_size |} ]
      else []
  | None => []
  end.

Definition expected (window_size : nat) (sym : string)
    (rows : list DataPoint) (column : DataPoint -> Q) (ty : AnomalyType)
    : list Anomaly :=
  flat_map (expected_at window_size sym rows column ty)
           (seq 0 (List.length rows)).

Definition reported (sym : string) (out : list Anomaly) : list Anomaly :=
  filter (fun a => String.eqb (a_symbol a) sym) out.

End TimeSeries.

(** ** AnomalyMLModel *)

Module MLModel.

(** A numeric frame: one list of feature values per row. *)
Definition Frame := list (list Q).

(** [DataFrame.empty]: some axis has length zero. *)
Definition frame_empty (f : Frame) : bool :=
  match f with
  | [] => true
  | [] :: _ => true
  | _ => false
  end.

(** What the model uses of scikit-learn, joblib and the numeric part of
    pandas.  These live outside the repository; the model is written over
    any implementation of them.  An estimator is fitted in place, so
    fitting returns the estimator as it is left behind together with the
    outcome of the call. *)
Class Estimators (Scaler Forest : Type) := {
  (* StandardScaler() *)
  new_scaler : Scaler;
  (* IsolationForest(contamination=c, random_state=42, n_estimators=100) *)
  new_forest : Q -> Forest;
  fit_transform : Scaler -> Frame -> Scaler * result Frame;
  transform : Scaler -> Frame -> result Frame;
  fit : Forest -> Frame -> Forest * result unit;
  predict : Forest -> Frame -> result (list Z);
  decision_function : Forest -> Frame -> result (list Q);
  (* the column computations of prepare_features on a non-empty input,
     selecting the given feature columns *)
  feature_rows : list string -> list DataPoint -> result Frame
}.

Record Anomaly := mkAnomaly {
  a_symbol : string;
  anomaly_type : AnomalyType;
  severity : Severity;
  data_timestamp : Z;
  (* details *)
  anomaly_score : Q;
  model_type : string;
  features_used : list string
}.

Section Model.
Context {Scaler Forest : Type} `{Estimators Scaler Forest}.

Record AnomalyMLModel := mkModel {
  contamination : Q;
  model : Forest;
  scaler : Scaler;
  is_trained : bool;
  feature_columns : list string
}.

Definition init (contamination : Q) : AnomalyMLModel :=
  {| contamination := contamination;
     model := new_forest contamination;
     scaler := new_scaler;
     is_trained := false;
     feature_columns :=
       [ "price"; "volume"; "price_change_pct"; "volume_change_pct";
         "price_volatility"; "volume_volatility"; "time_since_last_update" ]
  |}.

Definition set_model (m : Forest) (self : AnomalyMLModel) :=
  mkModel (contamination self) m (scaler self) (is_trained self)
          (feature_columns self).
Definition set_scaler (s : Scaler) (self : AnomalyMLModel) :=
  mkModel (contamination self) (model self) s (is_trained self)
          (feature_columns self).
Definition set_is_trained (b : bool) (self : AnomalyMLModel) :=
  mkModel (contamination self) (model self) (scaler self) b
          (feature_columns self).
Definition set_feature_columns (c : list string) (self : AnomalyMLModel) :=
  mkModel (contamination self) (model self) (scaler self) (is_trained self) c.
Definition set_contamination (c : Q) (self : AnomalyMLModel) :=
  mkModel c (model self) (scaler self) (is_trained self)
          (feature_columns self).

Definition prepare_features (self : AnomalyMLModel)
    (data_points : list DataPoint) : result Frame :=
  match data_points with
  | [] => Return []                               (* pd.DataFrame() *)
  | _ => feature_rows (feature_columns self) data_points
  end.

(** [train] returns the object as the call leaves it and the boolean it
    returns; every exception is caught. *)
Definition train (self : AnomalyMLModel) (training_data : list DataPoint)
    : AnomalyMLModel * bool :=
  match prepare_features self training_data with
  | Raised _ => (self, false)
  | Return features_df =>
      if frame_empty features_df then (self, false)
      else
        let (sc, scaled) := fit_transform (scaler self) features_df in
        let self := set_scaler sc self in
        match scaled with
        | Raised _ => (self, false)
        | Return features_scaled =>
            let (fo, fitted) := fit (model self) features_scaled in
            let self := set_model fo self in
            match fitted with
            | Raised _ => (self, false)
            | Return _ => (set_is_trained true self, true)
            end
        end
  end.

Definition _get_severity_from_score (score : Q) : Severity :=
  if Qgtb (-(5 # 10)) score then critical
  else if Qgtb (-(3 # 10)) score then high
  else if Qgtb (-(1 # 10)) score then medium
  else low.

(** The loop over [enumerate(zip(predictions, anomaly_scores))];
    [data_points[i]] raises [IndexError] past the end of the input. *)
Fixpoint collect (self : AnomalyMLModel) (data_points : list DataPoint)
    (i : nat) (scored : list (Z * Q)) : result (list Anomaly) :=
  match scored with
  | [] => Return []
  | (prediction, score) :: rest =>
      if (prediction =? -1)%Z then
        match nth_error data_points i with
        | None => Raised "IndexError"
        | Some data_point =>
            more <- collect self data_points (S i) rest ;;
            Return ({| a_symbol := symbol data_point;
                       anomaly_type := ml_detected;
                       severity := _get_severity_from_score score;
                       data_timestamp := timestamp data_point;
                       anomaly_score := score;
                       model_type := "isolation_forest";
                       features_used := feature_columns self |} :: more)
        end
      else collect self data_points (S i) rest
  end.

Definition predict_anomalies (self : AnomalyMLModel)
    (data_points : list DataPoint) : result (list Anomaly) :=
  if negb (is_trained self) then Return []
  else
    try_except
      (features_df <- prepare_features self data_points ;;
       if frame_empty features_df then Return []
       else
         features_scaled <- transform (scaler self) features_df ;;
         predictions <- predict (model self) features_scaled ;;
         anomaly_scores <- decision_function (model self) features_scaled ;;
         collect self data_points 0 (combine predictions anomaly_scores))
      [].

(** The object that [joblib.load] returns: a dict in which any of the five
    keys may be missing. *)
Record ModelData := mkData {
  k_model : option Forest;
  k_scaler : option Scaler;
  k_is_trained : option bool;
  k_feature_columns : option (list string);
  k_contamination : option Q
}.

(** [save_model] writes this dict. *)
Definition model_data (self : AnomalyMLModel) : ModelData :=
  {| k_model := Some (model self);
     k_scaler := Some (scaler self);
     k_is_trained := Some (is_trained self);
     k_feature_columns := Some (feature_columns self);
     k_contamination := Some (contamination self) |}.

(** [load_model], given the outcome of [joblib.load(filepath)].  The five
    assignments run in order; a missing key raises [KeyError] and ends the
    call with the earlier assignments done. *)
Definition load_model (self : AnomalyMLModel) (loaded : result ModelData)
    : AnomalyMLModel * bool :=
  match loaded with
  | Raised _ => (self, false)
  | Return d =>
    match k_model d with
    | None => (self, false)
    | Some m =>
      let self := set_model m self in
      match k_scaler d with
      | None => (self, false)
      | Some s =>
        let self := set_scaler s self in
        match k_is_trained d with
        | None => (self, false)
        | Some b =>
          let self := set_is_trained b self in
          match k_feature_columns d with
          | None => (self, false)
          | Some c =>
            let self := set_feature_columns c self in
            match k_contamination d with
            | None => (self, false)
            | Some q => (set_contamination q self, true)
            end
          end
        end
      end
    end
  end.
End Model.

Arguments AnomalyMLModel : clear implicits.
Arguments ModelData : clear implicits.

(** A small stand-in for the estimators, following their documented
    behaviour where the model depends on it: a scaler remembers the frame it
    was fitted on; a forest checks at fitting time that its contamination
    lies in (0, 0.5] and raises otherwise; an unfitted estimator raises on
    use.  A fitted forest flags the rows whose first feature is negative. *)
Record ToyForest := mkForest {
  f_contamination : Q;
  f_fitted : bool
}.

Definition toy_fit (fo : ToyForest) (x : Frame) : ToyForest * result unit :=
  if Qgtb (f_contamination fo) 0 && negb (Qgtb (f_contamination fo) (1 # 2))
  then (mkForest (f_contamination fo) true, Return tt)
  else (fo, Raised "InvalidParameterError: contamination").

Definition toy_score (row : list Q) : Q := nth 0 row 0.

#[global] Instance toy : Estimators (option Frame) ToyForest := {
  new_scaler := None;
  new_forest c := mkForest c false;
  fit_transform _ x := (Some x, Return x);
  transform sc x :=
    match sc with
    | Some _ => Return x
    | None => Raised "NotFittedError"
    end;
  fit := toy_fit;
  predict fo x :=
    if f_fitted fo
    then Return (map (fun r => if Qgtb 0 (toy_score r) then (-1)%Z else 1%Z) x)
    else Raised "NotFittedError";
  decision_function fo x :=
    if f_fitted fo then Return (map toy_score x)
    else Raised "NotFittedError";
  feature_rows _ dps := Return (map (fun d => [price d; volume d]) dps)
}.

(** The outcome of [joblib.load] on a path that does not exist. *)
Definition missing_file : result (ModelData (option Frame) ToyForest) :=
  Raised "FileNotFoundError".

End MLModel.

(** ** Data models (src/models/data_models.py) *)

Inductive DataSourceType := GEMFIRE | EOD | MSSQL | HBASE.

Inductive DataType :=
  PRICE | VOLUME | TRADE | QUOTE | ORDER_BOOK | INDEX | REFERENCE.

(** A value in a raw record: a number, the ISO text of an instant, another
    text, or [None]. *)
Inductive Value :=
| VNum (q : Q)
| VTime (t : Z)
| VText (s : string)
| VNone.

(** A Python dict with string keys, in insertion order. *)
Abbreviation dict V := (list (string * V)) (only parsing).

Fixpoint dict_get {V} (k : string) (d : dict V) : option V :=
  match d with
  | [] => None
  | (k', v) :: r => if String.eqb k' k then Some v else dict_get k r
  end.

Definition dict_mem {V} (k : string) (d : dict V) : bool :=
  match dict_get k d with Some _ => true | None => false end.

(** [d[k] = v]: replaces the value of an existing key in place, appends a
    new key. *)
Fixpoint dict_set {V} (k : string) (v : V) (d : dict V) : dict V :=
  match d with
  | [] => [(k, v)]
  | (k', v') :: r => if String.eqb k' k then (k', v) :: r
                     else (k', v') :: dict_set k v r
  end.

Definition Payload := dict Value.

Record MarketDataPoint := mkMarketDataPoint {
  m_symbol : string;
  m_timestamp : Z;
  source : DataSourceType;
  data_type : DataType;
  payload : Payload;
  m_price : option Q;
  m_volume : option Q
}.

(** ** BaseDataAdapter (src/adapters/base.py) *)

(** The fields that [BaseDataAdapter.__init__] sets. *)
Record BaseDataAdapter := mkBase {
  name : string;
  type : DataSourceType;
  _connected : bool;
  _last_heartbeat : option Z
}.

(** The abstract methods: a subclass brings its own state, which embeds the
    base fields, and implements the probe and the fetch.  [now] is the
    reading of the clock during the call. *)
Class DataAdapter (A : Type) := {
  base : A -> BaseDataAdapter;
  set_base : BaseDataAdapter -> A -> A;
  base_set_base : forall b a, base (set_base b a) = b;
  test_connection : A -> result bool;
  get_latest_data : Z -> A -> list string -> Z -> result (list MarketDataPoint)
}.

Section Base.
Context {A : Type} `{DataAdapter A}.

Definition is_connected (self : A) : bool := _connected (base self).

Definition get_last_heartbeat (self : A) : option Z :=
  _last_heartbeat (base self).

Definition set_last_heartbeat (t : option Z) (self : A) : A :=
  let b := base self in
  set_base (mkBase (name b) (type b) (_connected b) t) self.

(** [heartbeat]: the adapter as the call leaves it, and the returned
    boolean. *)
Definition heartbeat (now : Z) (self : A) : A * result bool :=
  match test_connection self with
  | Return r => (set_last_heartbeat (Some now) self, Return r)
  | Raised _ => (self, Return false)
  end.
End Base.

(** [float(v)]: succeeds on a number only. *)
Definition to_float (v : Value) : option Q :=
  match v with VNum q => Some q | _ => None end.

(** The first of [fields] that is in [raw] and converts to a float. *)
Fixpoint first_float (fields : list string) (raw : Payload) : option Q :=
  match fields with
  | [] => None
  | f :: rest =>
      match dict_get f raw with
      | Some v => match to_float v with
                  | Some q => Some q
                  | None => first_float rest raw
                  end
      | None => first_float rest raw
      end
  end.

Definition any_in (fields : list string) (raw : Payload) : bool :=
  existsb (fun f => dict_mem f raw) fields.

Definition _determine_data_type (raw : Payload) : DataType :=
  if any_in ["bid"; "ask"; "bid_size"; "ask_size"] raw then QUOTE
  else if any_in ["trade_price"; "trade_size"; "trade_time"] raw then TRADE
  else if dict_mem "volume" raw then VOLUME
  else if any_in ["price"; "last_price"; "close"] raw then PRICE
  else REFERENCE.

Definition _parse_data_point (self : BaseDataAdapter) (raw : Payload)
    (sym : string) (ts : Z) : MarketDataPoint :=
  {| m_symbol := sym;
     m_timestamp := ts;
     source := type self;
     data_type := _determine_data_type raw;
     payload := raw;
     m_price := first_float ["price"; "last_price"; "close"; "value"] raw;
     m_volume := first_float ["volume"; "size"; "quantity"] raw |}.

(** [l[:n]] for a Python int [n]: a negative bound counts from the end. *)
Definition slice_to {X} (l : list X) (n : Z) : list X :=
  if (0 <=? n)%Z then firstn (Z.to_nat n) l
  else firstn (List.length l - Z.to_nat (- n)) l.

(** Runs [f] on every element in order and concatenates the results; the
    first exception ends the loop. *)
Fixpoint for_each {X Y} (f : X -> result (list Y)) (l : list X)
    : result (list Y) :=
  match l with
  | [] => Return []
  | x :: rest =>
      ys <- f x ;;
      more <- for_each f rest ;;
      Return (ys ++ more)
  end.

(** ** GemfireAdapter (src/adapters/gemfire_adapter.py) *)

Module Gemfire.

Record GemfireAdapter := mkGemfire {
  g_base : BaseDataAdapter;
  _regions : dict string
}.

Definition minute : Z := 60000000.

(** The simulated cache lookup: five sample records, one per minute back
    from now, whatever the key. *)
Definition _get_from_cache (now : Z) (cache_key : string) : list Payload :=
  map (fun i : nat =>
         let q := inject_Z (Z.of_nat i) in
         [ ("timestamp", VTime (now - Z.of_nat i * minute));
           ("price", VNum (100 + q * (1 # 10)));
           ("volume", VNum (1000 + q * 10));
           ("bid", VNum ((999 # 10) + q * (1 # 10)));
           ("ask", VNum ((1001 # 10) + q * (1 # 10)));
           ("source", VText "gemfire_cache") ])
      (seq 0 5).

(** [datetime.fromisoformat(data.get('timestamp', now.isoformat()))] *)
Definition record_time (now : Z) (data : Payload) : result Z :=
  match dict_get "timestamp" data with
  | None => Return now
  | Some (VTime t) => Return t
  | Some (VText _) => Raised "ValueError"
  | Some _ => Raised "TypeError"
  end.

Definition test_connection (self : GemfireAdapter) : result bool :=
  try_except
    (if negb (_connected (g_base self)) then Return false else Return true)
    false.

Definition get_latest_data (now : Z) (self : GemfireAdapter)
    (symbols : list string) (limit : Z) : result (list MarketDataPoint) :=
  try_except
    (if negb (_connected (g_base self))
     then Raised "Not connected to Gemfire"
     else
       for_each
         (fun sym =>
            let cache_key := ("market_data:" ++ sym)%string in
            let cached_data := _get_from_cache now cache_key in
            match cached_data with
            | [] => Return []
            | _ =>
                for_each
                  (fun data =>
                     ts <- record_time now data ;;
                     Return [_parse_data_point (g_base self) data sym ts])
                  (slice_to cached_data limit)
            end)
         symbols)
    [].

#[global] Instance adapter : DataAdapter GemfireAdapter := {
  base := g_base;
  set_base b self := mkGemfire b (_regions self);
  base_set_base _ _ := eq_refl;
  test_connection := test_connection;
  get_latest_data := get_latest_data
}.

End Gemfire.

(** ** MSSQLAdapter (src/adapters/mssql_adapter.py) *)

Module Mssql.

(** A row of the [market_data] table.  The [payload] column is absent,
    JSON text (given parsed), or text that [json.loads] rejects. *)
Inductive RowPayload :=
| NoPayload
| Json (p : Payload)
| NotJson (raw : string).

Record Row := mkRow {
  r_symbol : string;
  r_timestamp : Z;
  r_price : Value;
  r_volume : Value;
  r_bid : Value;
  r_ask : Value;
  r_data_type : Value;
  r_payload : RowPayload
}.

(** The server behind the adapter: whether [pyodbc.connect] gets through,
    and the table it holds, newest row first. *)
Record MSSQLAdapter := mkMssql {
  m_base : BaseDataAdapter;
  reachable : bool;
  market_data : list Row
}.

(** [_execute_query] on
    [SELECT TOP limit ... WHERE symbol IN (symbols) ORDER BY timestamp DESC]:
    the server returns the first [limit] matching rows, and rejects a
    negative [TOP]. *)
Definition select_top (self : MSSQLAdapter) (symbols : list string)
    (limit : Z) : result (list Row) :=
  if negb (reachable self) then Raised "pyodbc.OperationalError"
  else if (limit <? 0)%Z then Raised "pyodbc.ProgrammingError"
  else Return (firstn (Z.to_nat limit)
                 (filter (fun r => existsb (String.eqb (r_symbol r)) symbols)
                         (market_data self))).

(** [payload.update({...})] *)
Definition update (p : Payload) (kvs : list (string * Value)) : Payload :=
  fold_left (fun acc kv => dict_set (fst kv) (snd kv) acc) kvs p.

Definition parse_row (self : MSSQLAdapter) (row : Row) : MarketDataPoint :=
  let payload :=
    match r_payload row with
    | NoPayload => []
    | Json p => p
    | NotJson raw => [("raw_data", VText raw)]
    end in
  let payload :=
    update payload
      [ ("price", r_price row); ("volume", r_volume row);
        ("bid", r_bid row); ("ask", r_ask row);
        ("data_type", r_data_type row) ] in
  _parse_data_point (m_base self) payload (r_symbol row) (r_timestamp row).

Definition get_latest_data (now : Z) (self : MSSQLAdapter)
    (symbols : list string) (limit : Z) : result (list MarketDataPoint) :=
  try_except
    (if negb (_connected (m_base self))
     then Raised "Not connected to MSSQL"
     else
       rows <- select_top self symbols limit ;;
       Return (map (parse_row self) rows))
    [].

(** The probe runs [SELECT 1 as test], which returns one row. *)
Definition test_connection (self : MSSQLAdapter) : result bool :=
  try_except
    (if negb (_connected (m_base self)) then Return false
     else if negb (reachable self) then Raised "pyodbc.OperationalError"
     else Return true)
    false.

#[global] Instance adapter : DataAdapter MSSQLAdapter := {
  base := m_base;
  set_base b self := mkMssql b (reachable self) (market_data self);
  base_set_base _ _ := eq_refl;
  test_connection := test_connection;
  get_latest_data := get_latest_data
}.

End Mssql.

(** ** DataSourceManager (src/adapters/manager.py) *)

(** An adapter of any class, as the manager's mapping holds them. *)
Record AnyAdapter := Pack {
  carrier : Type;
  carrier_adapter : DataAdapter carrier;
  self : carrier
}.
Arguments Pack {carrier carrier_adapter} self.

Definition any_connected (a : AnyAdapter) : bool :=
  @is_connected _ (carrier_adapter a) (self a).

(** [adapter.get_latest_data(symbols)], with the default limit of 100. *)
Definition any_latest (now : Z) (symbols : list string) (a : AnyAdapter)
    : result (list MarketDataPoint) :=
  @get_latest_data _ (carrier_adapter a) now (self a) symbols 100.

Module Manager.

Record DataSourceManager := mkManager {
  adapters : dict AnyAdapter
}.

(** The adapters to query: those named in a non-empty [source_names] that
    the manager holds, else all of them. *)
Definition adapters_to_query (self : DataSourceManager)
    (source_names : option (list string)) : dict AnyAdapter :=
  match source_names with
  | None | Some [] => adapters self
  | Some names =>
      fold_left
        (fun acc n =>
           match dict_get n (adapters self) with
           | Some a => dict_set n a acc
           | None => acc
           end)
        names []
  end.

(** The loop that awaits the tasks: an exception of one task is logged and
    the loop goes on. *)
Fixpoint gather (tasks : list (string * result (list MarketDataPoint)))
    (all_data : list MarketDataPoint) : list MarketDataPoint :=
  match tasks with
  | [] => all_data
  | (_, Return data) :: rest => gather rest (all_data ++ data)
  | (_, Raised _) :: rest => gather rest all_data
  end.

Definition get_latest_data (now : Z) (self : DataSourceManager)
    (symbols : list string) (source_names : option (list string))
    : result (list MarketDataPoint) :=
  try_except
    (let to_query := adapters_to_query self source_names in
     let tasks :=
       map (fun na => (fst na, any_latest now symbols (snd na)))
           (filter (fun na => any_connected (snd na)) to_query) in
     Return (gather tasks []))
    [].

Definition is_healthy (self : DataSourceManager) : bool :=
  match adapters self with
  | [] => false
  | _ => forallb (fun na => any_connected (snd na)) (adapters self)
  end.


End Manager.

(** Adapters used to exercise the manager: a connected cache, a connected
    database holding three rows, and a source whose every call raises. *)
Module SampleAdapters.

Record Flaky := mkFlaky {
  f_base : BaseDataAdapter;
  failure : string
}.

#[global] Instance flaky_adapter : DataAdapter Flaky := {
  base := f_base;
  set_base b self := mkFlaky b (failure self);
  base_set_base _ _ := eq_refl;
  test_connection self := Raised (failure self);
  get_latest_data _ self _ _ := Raised (failure self)
}.

Definition cache : Gemfire.GemfireAdapter :=
  Gemfire.mkGemfire (mkBase "gemfire_cache" GEMFIRE true None)
                    [("market_data", "region_market_data")].

Definition row (s : string) (t : Z) (p : Q) : Mssql.Row :=
  Mssql.mkRow s t (VNum p) (VNum 1000) VNone VNone (VText "price")
              Mssql.NoPayload.

Definition database : Mssql.MSSQLAdapter :=
  Mssql.mkMssql (mkBase "mssql_historical" MSSQL true None) true
    [ row "AAPL" (Sample.t0 + 2 * Sample.minute) 151;
      row "MSFT" (Sample.t0 + Sample.minute) 300;
      row "AAPL" Sample.t0 150 ].

Definition broken : Flaky :=
  mkFlaky (mkBase "hbase_feed" HBASE true (Some Sample.t0)) "TimeoutError".

Definition manager : Manager.DataSourceManager :=
  Manager.mkManager
    [ ("gemfire_cache", Pack cache);
      ("hbase_feed", Pack broken);
      ("mssql_historical", Pack database) ].

End SampleAdapters.

(** ** Alert rules *)

Module Alerts.

(** The rule as src/models/data_models.py declares it.  The active hours
    ["HH:MM"] are kept as minutes after midnight. *)
Record AlertRule := mkRule {
  rule_name : string;
  symbols : list string;
  data_sources : list DataSourceType;
  anomaly_types : list AnomalyType;
  min_severity : Severity;
  active_hours_start : Z;
  active_hours_end : Z;
  timezone : string;
  max_alerts_per_hour : Z;
  cooldown_minutes : Z;
  enabled : bool
}.

(** The fields of an [Anomaly] that a rule looks at. *)
Record Anomaly := mkAnomaly {
  a_symbol : string;
  a_type : AnomalyType;
  a_severity : Severity;
  a_source : DataSourceType
}.

Definition minute : Z := 60000000.
Definition hour : Z := 60 * minute.
Definition day_minutes : Z := 1440.

(** Modelled from the spec: the alert-rule engine (section 4.4) is not among
    the sources, which only declare [AlertRule].  The state the engine keeps
    for a rule: the instants of the alerts it sent, newest first, from which
    the count in the trailing hour is read, and the instant of the last
    alert sent. *)
Record RuleState := mkState {
  sent : list Z;
  last_sent : option Z
}.

Definition fresh : RuleState := mkState [] None.

Definition rank (s : Severity) : nat :=
  match s with low => 0 | medium => 1 | high => 2 | critical => 3 end.

Definition source_rank (t : DataSourceType) : nat :=
  match t with GEMFIRE => 0 | EOD => 1 | MSSQL => 2 | HBASE => 3 end.

Definition source_eqb (a b : DataSourceType) : bool :=
  (source_rank a =? source_rank b)%nat.

Definition type_rank (t : AnomalyType) : nat :=
  match t with
  | missing_data => 0 | price_movement => 1 | data_stale => 2
  | volume_spike => 3 | data_quality => 4 | ml_detected => 5
  | price_zscore => 6 | volume_zscore => 7
  end.

Definition type_eqb (a b : AnomalyType) : bool :=
  (type_rank a =? type_rank b)%nat.

(** An allow-list passes everything when it is empty. *)
Definition allowed {X} (eqb : X -> X -> bool) (l : list X) (x : X) : bool :=
  match l with
  | [] => true
  | _ => existsb (eqb x) l
  end.

Section Engine.
(** The offset from UTC, in minutes, of a time zone at an instant. *)
Variable utc_offset_minutes : string -> Z -> Z.

Definition local_minute_of_day (tz : string) (now : Z) : Z :=
  ((now / minute + utc_offset_minutes tz now) mod day_minutes)%Z.

(** Modelled from the spec: checks (a) to (e) of section 4.4, the filters
    of the rule: enabled, symbol, source and type allow-lists, minimum
    severity, and the active-hour window [start, end), which may wrap past
    midnight. *)
Definition passes_filters (r : AlertRule) (a : Anomaly) (now : Z) : bool :=
  enabled r
  && allowed String.eqb (symbols r) (a_symbol a)
  && allowed source_eqb (data_sources r) (a_source a)
  && allowed type_eqb (anomaly_types r) (a_type a)
  && (rank (min_severity r) <=? rank (a_severity a))%nat
  && (let t := local_minute_of_day (timezone r) now in
      if (active_hours_start r <=? active_hours_end r)%Z
      then (active_hours_start r <=? t)%Z && (t <? active_hours_end r)%Z
      else (active_hours_start r <=? t)%Z || (t <? active_hours_end r)%Z).

(** Modelled from the spec: the number of alerts of the rule sent in the
    trailing hour. *)
Definition sent_in_last_hour (st : RuleState) (now : Z) : Z :=
  Z.of_nat (List.length (filter (fun t => (now - hour <? t)%Z) (sent st))).

(** Modelled from the spec: check (f), the hourly cap.  The rule may send
    as long as the alerts of the trailing hour are fewer than
    [max_alerts_per_hour], so that a cap of one lets a single alert
    through. *)
Definition under_hourly_cap (r : AlertRule) (st : RuleState) (now : Z)
    : bool :=
  (sent_in_last_hour st now <? max_alerts_per_hour r)%Z.

(** Modelled from the spec: check (g), at least [cooldown_minutes] since the
    last alert the rule sent. *)
Definition cooled_down (r : AlertRule) (st : RuleState) (now : Z) : bool :=
  match last_sent st with
  | None => true
  | Some t => (cooldown_minutes r * minute <=? now - t)%Z
  end.

(** Modelled from the spec: the evaluation of one anomaly against one rule.
    A rule that passes all checks dispatches and records the alert in the
    same step; a rule that fails a check is skipped and its state is left
    as it was. *)
Definition evaluate (r : AlertRule) (st : RuleState) (a : Anomaly)
    (now : Z) : bool * RuleState :=
  if passes_filters r a now && under_hourly_cap r st now
     && cooled_down r st now
  then (true, mkState (now :: sent st) (Some now))
  else (false, st).

(** Modelled from the spec: a sequence of anomalies with their arrival
    instants, evaluated in order against one rule; returns the anomalies
    dispatched and the final state. *)
Fixpoint run (r : AlertRule) (st : RuleState) (arrivals : list (Anomaly * Z))
    : list (Anomaly * Z) * RuleState :=
  match arrivals with
  | [] => ([], st)
  | (a, now) :: rest =>
      let (sent_now, st') := evaluate r st a now in
      let (more, st'') := run r st' rest in
      (if sent_now then (a, now) :: more else more, st'')
  end.
End Engine.

(** A rule on AAPL that is active around the clock, capped at one alert
    per hour with a cooldown of fifteen minutes, and two anomalies for it. *)
Definition sample_rule : AlertRule :=
  {| rule_name := "aapl_gaps";
     symbols := ["AAPL"];
     data_sources := [];
     anomaly_types := [missing_data; price_movement];
     min_severity := medium;
     active_hours_start := 0;
     active_hours_end := 1440;
     timezone := "US/Eastern";
     max_alerts_per_hour := 1;
     cooldown_minutes := 15;
     enabled := true |}.

Definition eastern (tz : string) (now : Z) : Z := (-300)%Z.

Definition first_anomaly : Anomaly := mkAnomaly "AAPL" missing_data high GEMFIRE.
Definition second_anomaly : Anomaly :=
  mkAnomaly "AAPL" price_movement critical GEMFIRE.

End Alerts.

(** ** Further operations of the adapters, the manager and the model *)






Module GemfireOps.
Import Gemfire.

(** [connect]: registers a region handle for every configured region,
    [regions] being [connection_params.get('regions')], and marks the
    adapter connected. *)
Definition connect (regions : option (list string)) (self : GemfireAdapter)
    : GemfireAdapter * bool :=
  let regions := match regions with
                 | Some l => l
                 | None => ["market_data"]
                 end in
  let handles :=
    fold_left (fun acc region_name =>
                 dict_set region_name ("region_" ++ region_name)%string acc)
              regions (_regions self) in
  let b := g_base self in
  (mkGemfire (mkBase (name b) (type b) true (_last_heartbeat b)) handles,
   true).

Definition disconnect (self : GemfireAdapter) : GemfireAdapter * bool :=
  let b := g_base self in
  (mkGemfire (mkBase (name b) (type b) false (_last_heartbeat b)) [], true).

(** [get_historical_data]: the cache has no history; the latest data are
    filtered to the time range and cut to [limit]. *)
Definition get_historical_data (now : Z) (self : GemfireAdapter)
    (symbols : list string) (start_time end_time : Z) (limit : Z)
    : result (list MarketDataPoint) :=
  try_except
    (recent_data <- get_latest_data now self symbols limit ;;
     let filtered_data :=
       filter (fun dp => (start_time <=? m_timestamp dp)%Z
                         && (m_timestamp dp <=? end_time)%Z)
              recent_data in
     Return (slice_to filtered_data limit))
    [].

Definition get_cache_statistics (self : GemfireAdapter)
    : bool * list string * option Z :=
  (_connected (g_base self), map fst (_regions self),
   _last_heartbeat (g_base self)).

End GemfireOps.

Module MssqlOps.
Import Mssql.

(** [connect]: opens and closes a test connection; a failure is caught and
    leaves the adapter disconnected. *)
Definition connect (self : MSSQLAdapter) : MSSQLAdapter * bool :=
  let b := m_base self in
  let connected := reachable self in
  (mkMssql (mkBase (name b) (type b) connected (_last_heartbeat b))
           (reachable self) (market_data self),
   connected).

Definition disconnect (self : MSSQLAdapter) : MSSQLAdapter * bool :=
  let b := m_base self in
  (mkMssql (mkBase (name b) (type b) false (_last_heartbeat b))
           (reachable self) (market_data self),
   true).

End MssqlOps.

Module ManagerOps.
Import Manager.

(** [adapter.heartbeat()] on an adapter of any class. *)
Definition any_heartbeat (now : Z) (a : AnyAdapter)
    : AnyAdapter * result bool :=
  let (s, r) := @heartbeat _ (carrier_adapter a) now (self a) in
  (@Pack _ (carrier_adapter a) s, r).

Definition any_base (a : AnyAdapter) : BaseDataAdapter :=
  @base _ (carrier_adapter a) (self a).



(** The adapters a round finds failing: those it logs a warning for. *)
Definition failed_health_checks (clock : string -> Z)
    (self : DataSourceManager) : list string :=
  map fst
    (filter (fun na =>
               match snd (any_heartbeat (clock (fst na)) (snd na)) with
               | Return true => false
               | _ => true
               end)
            (adapters self)).

Record AdapterStatus := mkStatus {
  s_connected : bool;
  s_last_heartbeat : option Z;
  s_type : DataSourceType;
  s_supported_symbols : list string
}.

Record HealthStatus := mkHealth {
  overall_healthy : bool;
  total_adapters : nat;
  connected_adapters : nat;
  adapters_status : dict AdapterStatus
}.

(** [get_health_status]; [expected_symbols n] is the symbol list of the
    configuration of the adapter named [n]. *)
Definition get_health_status (expected_symbols : string -> list string)
    (self : DataSourceManager) : HealthStatus :=
  {| overall_healthy := is_healthy self;
     total_adapters := List.length (adapters self);
     connected_adapters :=
       List.length (filter (fun na => any_connected (snd na))
                           (adapters self));
     adapters_status :=
       fold_left
         (fun acc na =>
            dict_set (fst na)
              (mkStatus (any_connected (snd na))
                        (_last_heartbeat (any_base (snd na)))
                        (type (any_base (snd na)))
                        (expected_symbols (fst na)))
              acc)
         (adapters self) [] |}.

(** [get_adapter] *)
Definition get_adapter (self : DataSourceManager) (n : string)
    : option AnyAdapter :=
  dict_get n (adapters self).

End ManagerOps.

Module MLModelOps.
Import MLModel.

Section Files.
Context {Scaler Forest : Type} `{Estimators Scaler Forest}.

(** The files that joblib reads and writes: a path holds a pickled dict or
    nothing. *)
Definition Files := list (string * ModelData Scaler Forest).

Definition joblib_load (fs : Files) (filepath : string)
    : result (ModelData Scaler Forest) :=
  match dict_get filepath fs with
  | Some d => Return d
  | None => Raised "FileNotFoundError"
  end.

(** [save_model]: dumps the five fields to [filepath]; [writable] tells
    whether [joblib.dump] can write there.  Returns the files as the call
    leaves them and the returned boolean. *)
Definition save_model (writable : string -> bool)
    (self : AnomalyMLModel Scaler Forest) (fs : Files) (filepath : string)
    : Files * bool :=
  if writable filepath
  then (dict_set filepath (model_data self) fs, true)
  else (fs, false).

End Files.
End MLModelOps.

Module ManagerInit.
Import Manager.

(** What the adapters read of a [DataSourceConfig]: its name, its type and,
    for the cache, the ['regions'] entry of the connection parameters. *)
Record DataSourceConfig := mkConfig {
  c_name : string;
  c_type : DataSourceType;
  c_regions : option (list string)
}.

(** The configurations that [_load_data_source_configs] builds from the
    settings, which always carry a [gemfire] and an [mssql] section. *)
Definition _load_data_source_configs : list DataSourceConfig :=
  [ mkConfig "gemfire_cache" GEMFIRE
      (Some ["market_data"; "quotes"; "trades"]);
    mkConfig "mssql_historical" MSSQL None ].

(** A freshly constructed adapter, before [initialize]. *)
Inductive Created :=
| NewGemfire (g : Gemfire.GemfireAdapter)
| NewMssql (m : Mssql.MSSQLAdapter).

Section Initialize.
(** The database server of the deployment: whether it can be reached, and
    its table. *)
Variable server_reachable : bool.
Variable server_rows : list Mssql.Row.

Definition _create_adapter (config : DataSourceConfig) : option Created :=
  match c_type config with
  | GEMFIRE =>
      Some (NewGemfire
              (Gemfire.mkGemfire (mkBase (c_name config) GEMFIRE false None)
                                 []))
  | MSSQL =>
      Some (NewMssql
              (Mssql.mkMssql (mkBase (c_name config) MSSQL false None)
                             server_reachable server_rows))
  | HBASE | EOD => None               (* not yet implemented *)
  end.

(** [BaseDataAdapter.initialize]: the outcome of [connect]. *)
Definition initialize_adapter (config : DataSourceConfig) (a : Created)
    : AnyAdapter * bool :=
  match a with
  | NewGemfire g =>
      let (g', ok) := GemfireOps.connect (c_regions config) g in
      (Pack g', ok)
  | NewMssql m =>
      let (m', ok) := MssqlOps.connect m in
      (Pack m', ok)
  end.

(** [DataSourceManager.initialize] on a manager with the given registry:
    each configuration whose adapter can be created and connects is
    registered under its name. *)
Definition initialize (self : DataSourceManager)
    (configs : list DataSourceConfig) : DataSourceManager * bool :=
  (mkManager
     (fold_left
        (fun acc config =>
           match _create_adapter config with
           | Some adapter =>
               let (a, success) := initialize_adapter config adapter in
               if success then dict_set (c_name config) a acc else acc
           | None => acc
           end)
        configs (adapters self)),
   true).

(** Whether a configuration ends up registered. *)
Definition comes_up (config : DataSourceConfig) : bool :=
  match c_type config with
  | GEMFIRE => true
  | MSSQL => server_reachable
  | HBASE | EOD => false
  end.
End Initialize.

End ManagerInit.



(* ================================================================== *)
(** * Properties *)

(** ** Generic facts about lists, sorting and rationals *)

Lemma Qgtb_lt x y : Qgtb x y = true <-> (y < x)%Q.
Proof.
  unfold Qgtb. rewrite negb_true_iff, <- not_true_iff_false, Qle_bool_iff.
  split; [apply Qnot_le_lt | apply Qlt_not_le].
Qed.

Lemma Qgtb_le x y : Qgtb x y = false <-> (x <= y)%Q.
Proof.
  unfold Qgtb. rewrite negb_false_iff. apply Qle_bool_iff.
Qed.

Lemma Qgtb_compat x x' y y' : x == x' -> y == y' -> Qgtb x y = Qgtb x' y'.
Proof.
  intros Hx Hy. unfold Qgtb. f_equal.
  destruct (Qle_bool x y) eqn:E, (Qle_bool x' y') eqn:E'; try reflexivity.
  - apply Qle_bool_iff in E. rewrite Hx, Hy in E.
    apply Qle_bool_iff in E. congruence.
  - apply Qle_bool_iff in E'. rewrite <- Hx, <- Hy in E'.
    apply Qle_bool_iff in E'. congruence.
Qed.

Lemma unique_In l x : In x (unique l) <-> In x l.
Proof.
  induction l as [|y r IH]; simpl; [tauto|].
  rewrite filter_In, IH, negb_true_iff, String.eqb_neq.
  destruct (string_dec x y); subst; intuition congruence.
Qed.

Lemma NoDup_filter {A} (f : A -> bool) l : NoDup l -> NoDup (filter f l).
Proof.
  induction 1 as [|x l Hx Hl IH]; simpl; [constructor|].
  destruct (f x); [constructor|]; auto.
  rewrite filter_In. tauto.
Qed.

Lemma unique_NoDup l : NoDup (unique l).
Proof.
  induction l as [|y r IH]; simpl; constructor.
  - rewrite filter_In, String.eqb_refl. simpl. intuition discriminate.
  - now apply NoDup_filter.
Qed.

Section GroupBy.
Context {A : Type} (key : A -> string) (f : string -> list A).
Hypothesis key_f : forall s a, In a (f s) -> key a = s.

Let pick (s : string) := filter (fun a => String.eqb (key a) s).

Lemma pick_same s : pick s (f s) = f s.
Proof.
    unfold pick. apply forallb_filter_id, forallb_forall.
    intros a Ha. apply String.eqb_eq. eauto.
Qed.

Lemma pick_other s s' : s' <> s -> pick s (f s') = [].
Proof.
    intros Hne. unfold pick.
    assert (forall a, In a (f s') -> key a = s') as K by eauto.
    revert K. generalize (f s'). intros l K.
    induction l as [|b l IH]; simpl; [reflexivity|].
    destruct (String.eqb_spec (key b) s) as [Hk|Hk].
    - exfalso. apply Hne. rewrite <- Hk. symmetry. apply K. now left.
    - apply IH. intros; apply K; now right.
Qed.

Lemma pick_flat_map_out s L :
    ~ In s L -> pick s (flat_map f L) = [].
Proof.
    induction L as [|x L IH]; simpl; intros Hn; [reflexivity|].
    unfold pick in *. rewrite filter_app.
    fold (pick s (f x)). rewrite pick_other by intuition.
    simpl. apply IH. intuition.
Qed.

Lemma pick_flat_map_in s L :
    NoDup L -> In s L -> pick s (flat_map f L) = f s.
Proof.
    induction 1 as [|x L Hx HL IH]; simpl; intros Hin; [tauto|].
    unfold pick in *. rewrite filter_app.
    destruct (string_dec x s) as [->|Hne].
    - fold (pick s (f s)). rewrite pick_same.
      fold (pick s (flat_map f L)). rewrite pick_flat_map_out by assumption.
      apply app_nil_r.
    - fold (pick s (f x)). rewrite pick_other by assumption.
      simpl. apply IH. destruct Hin; congruence.
Qed.
End GroupBy.

Lemma flat_map_ext_seq {B} (f g : nat -> list B) a n :
  (forall i, (a <= i < a + n)%nat -> f i = g i) ->
  flat_map f (seq a n) = flat_map g (seq a n).
Proof.
  revert a. induction n as [|n IH]; intros a H; simpl; [reflexivity|].
  rewrite H by lia. f_equal. apply IH. intros; apply H; lia.
Qed.

(** A loop over [range(1, len(l))] that reads [l[i]] and [l[i-1]] visits
    exactly the pairs of neighbours of [l], in order. *)
Lemma loop_adjacent {A B} (g : A -> A -> list B) (l : list A) :
  flat_map (fun i => match nth_error l i, nth_error l (i - 1) with
                     | Some c, Some p => g p c
                     | _, _ => []
                     end)
           (seq 1 (List.length l - 1))
  = flat_map (fun pc => g (fst pc) (snd pc)) (adjacent l).
Proof.
  destruct l as [|x r]; [reflexivity|].
  replace (List.length (x :: r) - 1)%nat with (List.length r)
    by (simpl; lia).
  revert x. induction r as [|y r IH]; intros x; [reflexivity|].
  specialize (IH y). unfold adjacent in *. simpl in *.
  f_equal. rewrite <- IH, <- seq_shift.
  rewrite flat_map_concat_map, map_map, <- flat_map_concat_map.
  apply flat_map_ext_seq. intros i Hi.
  destruct i as [|i]; [lia|]. simpl. now rewrite Nat.sub_0_r.
Qed.

Lemma adjacent_map {A B} (h : A -> B) l :
  adjacent (map h l) = map (fun pc => (h (fst pc), h (snd pc))) (adjacent l).
Proof.
  unfold adjacent.
  replace (tl (map h l)) with (map h (tl l)) by (now destruct l).
  generalize (tl l). induction l as [|x l IH]; intros [|y t]; simpl;
    try reflexivity.
  now rewrite IH.
Qed.

(** A list of integers has a single non-decreasing rearrangement. *)
Lemma sorted_perm_unique (l1 l2 : list Z) :
  Sorted Z.le l1 -> Sorted Z.le l2 -> Permutation l1 l2 -> l1 = l2.
Proof.
  intros S1 S2.
  apply Sorted_StronglySorted in S1; [|intros a b c; apply Z.le_trans].
  apply Sorted_StronglySorted in S2; [|intros a b c; apply Z.le_trans].
  revert l2 S2. induction S1 as [|a l1 S1 IH Ha]; intros l2 S2 P.
  - apply Permutation_nil in P. now subst.
  - destruct S2 as [|b l2 S2 Hb].
    + symmetry in P. apply Permutation_nil in P. discriminate.
    + assert (a = b) as ->.
      { rewrite Forall_forall in Ha, Hb.
        assert (In b (a :: l1)) as Hb1
          by (eapply Permutation_in; [symmetry; exact P | now left]).
        assert (In a (b :: l2)) as Ha2
          by (eapply Permutation_in; [exact P | now left]).
        destruct Hb1 as [|Hb1]; [assumption|].
        destruct Ha2 as [|Ha2]; [congruence|].
        apply Z.le_antisymm; auto. }
      f_equal. apply IH; [assumption|].
      eapply Permutation_cons_inv; exact P.
Qed.

Lemma sorted_map_timestamp l :
  Sorted by_time l -> Sorted Z.le (map timestamp l).
Proof.
  induction 1 as [|d l Hl IH Hd]; simpl; constructor; [assumption|].
  destruct Hd; simpl; constructor. assumption.
Qed.

Lemma perm_to_nil {A} (l : list A) : Permutation l [] -> l = [].
Proof. intros H. symmetry in H. now apply Permutation_nil in H. Qed.

Lemma flat_map_if {A B} (p : A -> bool) (h : A -> B) l :
  flat_map (fun x => if p x then [h x] else []) l = map h (filter p l).
Proof.
  induction l as [|x l IH]; simpl; [reflexivity|].
  destruct (p x); simpl; now rewrite IH.
Qed.

Lemma rows_of_absent s df : ~ In s (map symbol df) -> rows_of s df = [].
Proof.
  induction df as [|d df IH]; simpl; intros H; [reflexivity|].
  destruct (String.eqb_spec (symbol d) s); [tauto|]. apply IH. tauto.
Qed.

Lemma rows_of_symbol s df d : In d (rows_of s df) -> symbol d = s.
Proof.
  unfold rows_of. rewrite filter_In. intros [_ H]. now apply String.eqb_eq.
Qed.

(** ** MissingDataDetector.detect *)

Section MissingDataFacts.
Import MissingData.
Variable sort_values : list DataPoint -> list DataPoint.
Hypothesis sort_perm : forall l, Permutation (sort_values l) l.
Hypothesis sort_sorted : forall l, Sorted by_time (sort_values l).
Variable thr : Z.

Lemma check_gap_symbol sym rows i a :
    In a (check_gap thr sym rows i) -> a_symbol a = sym.
Proof.
    unfold check_gap.
    destruct (nth_error rows i), (nth_error rows (i - 1)); simpl; try tauto.
    destruct (Qgtb _ _); simpl; [|tauto]. intros [<-|[]]. reflexivity.
Qed.

Lemma detect_symbol_symbol df sym a :
    In a (detect_symbol sort_values thr df sym) -> a_symbol a = sym.
Proof.
    unfold detect_symbol. rewrite in_flat_map.
    intros (i & _ & H). eapply check_gap_symbol; eauto.
Qed.

  (** The loop of one symbol reports the exceeding pairs of neighbouring
      timestamps of the sorted frame. *)
Lemma detect_symbol_adjacent df sym :
    detect_symbol sort_values thr df sym =
    map (gap_anomaly thr sym)
        (filter (gap_exceeds thr)
                (adjacent (map timestamp (sort_values (rows_of sym df))))).
Proof.
    unfold detect_symbol.
    set (rows := sort_values (rows_of sym df)).
    set (g := fun prev cur : DataPoint =>
         if gap_exceeds thr (timestamp prev, timestamp cur)
         then [gap_anomaly thr sym (timestamp prev, timestamp cur)] else []).
    rewrite flat_map_ext with
      (g := fun i => match nth_error rows i, nth_error rows (i - 1) with
                     | Some c, Some p => g p c
                     | _, _ => []
                     end).
    - rewrite loop_adjacent, adjacent_map.
      rewrite <- flat_map_if.
      induction (adjacent rows) as [|pc l IH]; simpl; [reflexivity|].
      now rewrite IH.
    - intros i. unfold check_gap, g, gap_exceeds, gap_anomaly. simpl.
      destruct (nth_error rows i), (nth_error rows (i - 1)); try reflexivity.
      destruct (Qgtb _ (inject_Z thr)); [|reflexivity].
      match goal with |- context [Qgtb ?x (inject_Z (thr * 2))] =>
        replace (Qgtb x (inject_Z (thr * 2))) with (Qgtb x (2 * inject_Z thr))
      end; [reflexivity|].
      apply Qgtb_compat; [reflexivity|].
      rewrite inject_Z_mult. apply Qmult_comm.
Qed.

Lemma detect_flat_map df :
    detect sort_values thr df =
    flat_map (detect_symbol sort_values thr df) (unique (map symbol df)).
Proof. now destruct df. Qed.
End MissingDataFacts.


Lemma insert_row_perm d l : Permutation (insert_row d l) (d :: l).
Proof.
  induction l as [|e r IH]; simpl; [reflexivity|].
  destruct (timestamp d <=? timestamp e)%Z; [reflexivity|].
  rewrite IH. apply perm_swap.
Qed.

Lemma isort_perm l : Permutation (isort l) l.
Proof.
  induction l as [|d r IH]; simpl; [constructor|].
  rewrite insert_row_perm. now constructor.
Qed.

Lemma insert_row_sorted d l :
  Sorted by_time l -> Sorted by_time (insert_row d l).
Proof.
  induction l as [|e r IH]; simpl; intros S.
  - repeat constructor.
  - destruct (Z.leb_spec (timestamp d) (timestamp e)) as [Hle|Hgt].
    + constructor; [assumption|]. constructor. exact Hle.
    + inversion S as [|? ? Sr Hr]; subst. constructor; [auto|].
      destruct r as [|f r']; simpl.
      * constructor. unfold by_time. lia.
      * destruct (Z.leb_spec (timestamp d) (timestamp f)).
        -- constructor. unfold by_time. lia.
        -- inversion Hr; subst. now constructor.
Qed.

Lemma isort_sorted l : Sorted by_time (isort l).
Proof.
  induction l as [|d r IH]; simpl; [constructor|].
  now apply insert_row_sorted.
Qed.


(** The scenario of the specification: a two-hour gap against a threshold
    of thirty minutes gives one anomaly of severity [high] with a gap of 120
    minutes; a gap of exactly the threshold gives none. *)
Example missing_data_scenario :
  map (fun a => (MissingData.a_symbol a, MissingData.severity a,
                 Qred (MissingData.d_gap_minutes a)))
      (MissingData.detect isort 30
         [ Sample.pt "AAPL" Sample.t0 150;
           Sample.pt "AAPL" (Sample.t0 + Sample.hours 2) 149 ])
  = [("AAPL", high, 120)].
Proof. reflexivity. Qed.

Example missing_data_at_threshold :
  MissingData.detect isort 30
    [ Sample.pt "AAPL" Sample.t0 150;
      Sample.pt "AAPL" (Sample.t0 + 30 * Sample.minute) 149 ] = [].
Proof. reflexivity. Qed.

(** ** PriceMovementDetector.detect *)

Section PriceMovementFacts.
Import PriceMovement.
Variable sort_values : list DataPoint -> list DataPoint.
Hypothesis sort_perm : forall l, Permutation (sort_values l) l.
Variable thr : Q.








End PriceMovementFacts.



(** The scenario of the specification: 150 then 160 at the same instant,
    against a threshold of five percent, gives one anomaly of severity
    [high] with a change of 20/3 percent; a move of exactly the threshold
    gives none, and a move from a zero price is reported as infinite. *)
Example price_movement_scenario :
  map (fun a => (PriceMovement.a_symbol a, PriceMovement.severity a,
                 PriceMovement.price_change_percent a))
      (PriceMovement.detect isort 5
         [ Sample.pt "AAPL" Sample.t0 150; Sample.pt "AAPL" Sample.t0 160 ])
  = [("AAPL", high, Fin ((160 / 150 - 1) * 100))]
  /\ (160 / 150 - 1) * 100 == 20 # 3.
Proof. split; reflexivity. Qed.

Example price_movement_at_threshold :
  PriceMovement.detect isort 5
    [ Sample.pt "AAPL" Sample.t0 100;
      Sample.pt "AAPL" (Sample.t0 + Sample.minute) 105 ] = [].
Proof. reflexivity. Qed.

Example price_movement_from_zero :
  map (fun a => (PriceMovement.severity a, PriceMovement.price_change_percent a))
      (PriceMovement.detect isort 5
         [ Sample.pt "AAPL" Sample.t0 0;
           Sample.pt "AAPL" (Sample.t0 + Sample.minute) 105 ])
  = [(critical, Inf)].
Proof. reflexivity. Qed.

(** ** TimeSeriesAnomalyModel.detect_time_series_anomalies *)

Lemma nth_error_map_seq {A} (f : nat -> A) n i :
  nth_error (map f (seq 0 n)) i = if (i <? n)%nat then Some (f i) else None.
Proof.
  rewrite nth_error_map.
  destruct (Nat.ltb_spec i n) as [Hlt|Hge].
  - rewrite nth_error_nth' with (d := 0%nat) by (now rewrite length_seq).
    rewrite seq_nth by assumption. reflexivity.
  - replace (nth_error (seq 0 n) i) with (@None nat); [reflexivity|].
    symmetry. apply nth_error_None. now rewrite length_seq.
Qed.

Lemma nth_error_combine {A B} (l1 : list A) (l2 : list B) i :
  nth_error (combine l1 l2) i =
  match nth_error l1 i, nth_error l2 i with
  | Some a, Some b => Some (a, b)
  | _, _ => None
  end.
Proof.
  revert l2 i. induction l1 as [|a l1 IH]; intros [|b l2] [|i]; simpl;
    try reflexivity.
  - now destruct (nth_error l1 i).
  - apply IH.
Qed.

Lemma flat_map_filter {A B} (p : A -> bool) (f : A -> list B) l :
  flat_map f (filter p l) = flat_map (fun x => if p x then f x else []) l.
Proof.
  induction l as [|x l IH]; simpl; [reflexivity|].
  destruct (p x); simpl; now rewrite IH.
Qed.

Section TimeSeriesFacts.
Import TimeSeries.
Variable sort_values : list DataPoint -> list DataPoint.
Hypothesis sort_perm : forall l, Permutation (sort_values l) l.
Variable w : nat.

Lemma rolling_length {A} (stat : list Q -> option A) col :
  List.length (rolling stat w col) = List.length col.
Proof. unfold rolling. now rewrite length_map, length_seq. Qed.

Lemma rolling_nth {A} (stat : list Q -> option A) col idx :
  (w <= idx)%nat -> (idx < List.length col)%nat ->
  nth_error (rolling stat w col) idx = Some (stat (trailing w col idx)).
Proof.
  intros Hw Hidx. unfold rolling. rewrite nth_error_map_seq.
  destruct (Nat.ltb_spec idx (List.length col)); [|lia].
  destruct (Nat.leb_spec w (idx + 1)); [reflexivity|lia].
Qed.

Lemma detect_zscore_expected data column sym ty :
  _detect_zscore_anomalies w data column sym ty =
  expected w sym data column ty.
Proof.
  unfold _detect_zscore_anomalies, expected.
  set (col := map column data).
  set (rm := rolling mean w col). set (rv := rolling var w col).
  set (zs := map _ (combine col (combine rm rv))).
  assert (Hcol : List.length col = List.length data)
    by (unfold col; apply length_map).
  assert (Hzs : List.length zs = List.length data).
  { unfold zs, rm, rv.
    rewrite length_map, !length_combine, !rolling_length. lia. }
  rewrite Hzs, flat_map_filter. apply flat_map_ext_seq. intros idx Hidx.
  unfold expected_at.
  destruct (nth_error data idx) as [d|] eqn:Ed;
    [|apply nth_error_None in Ed; lia].
  destruct (Nat.leb_spec w idx) as [Hw|Hw];
    [|now destruct (zabs_gt _ _)].
  assert (Ez : nth_error zs idx =
               Some (zdiv (column d) (mean (trailing w col idx))
                                     (var (trailing w col idx)))).
  { unfold zs. rewrite nth_error_map, !nth_error_combine.
    unfold rm, rv. rewrite !rolling_nth by lia.
    unfold col at 1. rewrite nth_error_map, Ed. reflexivity. }
  rewrite (nth_error_nth _ _ _ Ez), Ez.
  rewrite (nth_error_nth rm _ None (rolling_nth mean col Hw ltac:(lia))).
  rewrite (nth_error_nth rv _ None (rolling_nth var col Hw ltac:(lia))).
  fold col. simpl. now destruct (zabs_gt _ 3).
Qed.

Lemma expected_short sym rows column ty :
  (List.length rows < w)%nat -> expected w sym rows column ty = [].
Proof.
  intros Hlen. unfold expected.
  rewrite flat_map_ext_seq with (g := fun _ => []).
  - induction (seq 0 (List.length rows)); simpl; auto.
  - intros idx Hidx. unfold expected_at.
    destruct (nth_error rows idx); [|reflexivity].
    destruct (Nat.leb_spec w idx); [lia|reflexivity].
Qed.

Lemma detect_symbol_expected_ts df sym :
  detect_symbol sort_values w df sym =
  let rows := sort_values (rows_of sym df) in
  expected w sym rows price price_zscore
  ++ expected w sym rows volume volume_zscore.
Proof.
  unfold detect_symbol. simpl.
  destruct (Nat.ltb_spec (List.length (sort_values (rows_of sym df))) w).
  - now rewrite !expected_short.
  - now rewrite !detect_zscore_expected.
Qed.



Lemma detect_ts_nonempty df :
  df <> [] ->
  detect_time_series_anomalies sort_values w df =
  Return (flat_map (detect_symbol sort_values w df) (unique (map symbol df))).
Proof. destruct df; [congruence|reflexivity]. Qed.
End TimeSeriesFacts.



Lemma Qsum_squares_nonneg (m : Q) l :
  0 <= TimeSeries.Qsum (map (fun x => (x - m) * (x - m)) l).
Proof.
  induction l as [|x l IH]; simpl; [apply Qle_refl|].
  assert (0 <= (x - m) * (x - m)).
  { destruct (Qlt_le_dec (x - m) 0) as [Hneg|Hpos].
    - setoid_replace ((x - m) * (x - m)) with ((- (x - m)) * (- (x - m)))
        by ring.
      apply Qmult_le_0_compat; apply (Qopp_le_compat (x - m) 0);
        now apply Qlt_le_weak.
    - now apply Qmult_le_0_compat. }
  replace 0 with (0 + 0) by reflexivity. now apply Qplus_le_compat.
Qed.




(** The empty input is not guarded: the call raises. *)
Example time_series_empty_input sort_values window_size :
  TimeSeries.detect_time_series_anomalies sort_values window_size [] =
  Raised "KeyError: 'symbol'".
Proof. reflexivity. Qed.

(** ** AnomalyMLModel: prediction before training *)

Lemma predict_anomalies_returns {Scaler Forest} `{MLModel.Estimators Scaler Forest}
    (self : MLModel.AnomalyMLModel Scaler Forest) data_points :
  exists out, MLModel.predict_anomalies self data_points = Return out.
Proof.
  unfold MLModel.predict_anomalies.
  destruct (negb _); [now eexists|].
  unfold try_except. destruct (bind _ _); now eexists.
Qed.

(** C4.  While [is_trained] is false, [predict_anomalies] returns the empty
    list, whatever the input, and does not raise. *)
Theorem predict_before_train_is_empty
    {Scaler Forest} `{MLModel.Estimators Scaler Forest}
    (self : MLModel.AnomalyMLModel Scaler Forest)
    (data_points : list DataPoint) :
  MLModel.is_trained self = false ->
  MLModel.predict_anomalies self data_points = Return [].
Proof.
  intros Hnot. unfold MLModel.predict_anomalies. now rewrite Hnot.
Qed.

(** C4 on a freshly constructed model. *)
Lemma predict_before_train_witness :
  MLModel.predict_anomalies (MLModel.init (H := MLModel.toy) (1 # 10))
    Sample.jump_points = Return [].
Proof.
  apply (@predict_before_train_is_empty _ _ MLModel.toy
           (MLModel.init (1 # 10)) Sample.jump_points).
  reflexivity.
Defined.

(** A model is untrained when constructed and stays so through any failed
    call to [train]. *)
Lemma init_untrained {Scaler Forest} `{MLModel.Estimators Scaler Forest} c :
  MLModel.is_trained (MLModel.init c) = false.
Proof. reflexivity. Qed.

(** ** AnomalyMLModel: failed training and loading *)

Section MLModelFacts.
Import MLModel.
Context {Scaler Forest : Type} `{Estimators Scaler Forest}.
Implicit Type self : AnomalyMLModel Scaler Forest.

Lemma train_failed_fields self data :
  snd (train self data) = false ->
  let self' := fst (train self data) in
  is_trained self' = is_trained self /\
  feature_columns self' = feature_columns self /\
  contamination self' = contamination self.
Proof.
  unfold train.
  destruct (prepare_features self data) as [features|e]; [|now auto].
  destruct (frame_empty features); [now auto|].
  destruct (fit_transform (scaler self) features) as [sc [scaled|e]];
    [|now auto].
  simpl. destruct (fit (model self) scaled) as [fo [[]|e]]; simpl;
    [discriminate|now auto].
Qed.

Lemma train_failed_early self data :
  (exists e, prepare_features self data = Raised e) \/
  (exists features, prepare_features self data = Return features /\
                    frame_empty features = true) ->
  train self data = (self, false).
Proof.
  unfold train. intros [[e ->]|(features & -> & ->)]; reflexivity.
Qed.

Lemma load_failed_contamination self loaded :
  snd (load_model self loaded) = false ->
  contamination (fst (load_model self loaded)) = contamination self.
Proof.
  unfold load_model. destruct loaded as [d|e]; [|reflexivity].
  destruct (k_model d); [|reflexivity].
  destruct (k_scaler d); [|reflexivity].
  destruct (k_is_trained d); [|reflexivity].
  destruct (k_feature_columns d); [|reflexivity].
  destruct (k_contamination d); [discriminate|reflexivity].
Qed.

Lemma load_failed_early self loaded :
  (exists e, loaded = Raised e) \/
  (exists d, loaded = Return d /\ k_model d = None) ->
  load_model self loaded = (self, false).
Proof.
  unfold load_model. intros [[e ->]|(d & -> & ->)]; reflexivity.
Qed.
End MLModelFacts.

(** C7, as the code has it.  A call to [train] that returns False leaves
    [is_trained], [feature_columns] and [contamination] as they were, and
    leaves all five fields as they were when it fails before the scaler is
    fitted (feature preparation raises, or yields no features).  A call to
    [load_model] that returns False leaves [contamination] as it was, and
    leaves all five fields as they were when the file cannot be loaded or
    holds no ['model'] key. *)
Theorem failed_update_preserves
    {Scaler Forest} `{MLModel.Estimators Scaler Forest}
    (self : MLModel.AnomalyMLModel Scaler Forest)
    (training_data : list DataPoint)
    (loaded : result (MLModel.ModelData Scaler Forest)) :
  (snd (MLModel.train self training_data) = false ->
     let self' := fst (MLModel.train self training_data) in
     MLModel.is_trained self' = MLModel.is_trained self /\
     MLModel.feature_columns self' = MLModel.feature_columns self /\
     MLModel.contamination self' = MLModel.contamination self /\
     ((exists e, MLModel.prepare_features self training_data = Raised e) \/
      (exists features,
         MLModel.prepare_features self training_data = Return features /\
         MLModel.frame_empty features = true) ->
      self' = self))
  /\ (snd (MLModel.load_model self loaded) = false ->
       let self' := fst (MLModel.load_model self loaded) in
       MLModel.contamination self' = MLModel.contamination self /\
       ((exists e, loaded = Raised e) \/
        (exists d, loaded = Return d /\ MLModel.k_model d = None) ->
        self' = self)).
Proof.
  split.
  - intros Hfail self'.
    destruct (train_failed_fields self training_data Hfail) as (T & F & C).
    repeat split; try assumption.
    intros Hearly. unfold self'. now rewrite train_failed_early.
  - intros Hfail self'. split.
    + now apply load_failed_contamination.
    + intros Hearly. unfold self'. now rewrite load_failed_early.
Qed.

(** C7, as the code has it, on a model whose training fails in
    [model.fit] and on a file that cannot be read. *)
Lemma failed_update_preserves_witness :
  let self := MLModel.init (H := MLModel.toy) (9 # 10) in
  (let self' := fst (MLModel.train self Sample.jump_points) in
   MLModel.is_trained self' = MLModel.is_trained self /\
   MLModel.feature_columns self' = MLModel.feature_columns self /\
   MLModel.contamination self' = MLModel.contamination self /\
   ((exists e,
       MLModel.prepare_features self Sample.jump_points = Raised e) \/
    (exists features,
       MLModel.prepare_features self Sample.jump_points = Return features /\
       MLModel.frame_empty features = true) ->
    self' = self))
  /\ (let self' := fst (MLModel.load_model self MLModel.missing_file) in
       MLModel.contamination self' = MLModel.contamination self /\
       ((exists e, MLModel.missing_file = Raised e) \/
        (exists d, MLModel.missing_file = Return d /\
                   MLModel.k_model d = None) ->
        self' = self)).
Proof.
  destruct (@failed_update_preserves _ _ MLModel.toy
              (MLModel.init (9 # 10)) Sample.jump_points
              MLModel.missing_file) as [Htrain Hload].
  split; [apply Htrain | apply Hload]; reflexivity.
Defined.

(** C7 as stated fails: a model constructed with a contamination of 0.9,
    outside the range the forest accepts, fits its scaler and then fails in
    [model.fit]; [train] returns False with the scaler refitted and the
    model as it was. *)
Lemma train_failure_keeps_refitted_scaler :
  let self := MLModel.init (H := MLModel.toy) (9 # 10) in
  let after := MLModel.train self Sample.jump_points in
  snd after = false /\
  MLModel.model (fst after) = MLModel.model self /\
  MLModel.scaler self = None /\
  MLModel.scaler (fst after) = Some [[150; 1000]; [160; 1000]] /\
  fst after <> self.
Proof.
  vm_compute. repeat split. discriminate.
Qed.

(** Likewise a file whose dict has a ['model'] but no ['scaler'] replaces
    the model and then fails. *)
Example load_failure_keeps_replaced_model :
  let self := MLModel.init (H := MLModel.toy) (1 # 10) in
  let file := MLModel.mkData (Some (MLModel.mkForest (2 # 10) true))
                             None (Some true) None None in
  let after := MLModel.load_model self (Return file) in
  snd after = false /\
  MLModel.model (fst after) = MLModel.mkForest (2 # 10) true /\
  MLModel.scaler (fst after) = MLModel.scaler self.
Proof. vm_compute. repeat split. Qed.

(** ** BaseDataAdapter.heartbeat *)


(** A probe that answers False still stamps the adapter: a disconnected
    cache adapter gets its last heartbeat set. *)
Example heartbeat_stamps_failed_probe :
  let down := Gemfire.mkGemfire (mkBase "gemfire_cache" GEMFIRE false None)
                                [] in
  snd (heartbeat Sample.t0 down) = Return false /\
  get_last_heartbeat (fst (heartbeat Sample.t0 down)) = Some Sample.t0.
Proof. split; reflexivity. Qed.

(** A probe that raises leaves the stamp alone. *)
Example heartbeat_keeps_stamp_on_exception :
  heartbeat (Sample.t0 + Sample.hours 1) SampleAdapters.broken
  = (SampleAdapters.broken, Return false).
Proof. reflexivity. Qed.

(** ** DataSourceManager *)





Example manager_merges_two_of_three :
  exists out,
    Manager.get_latest_data Sample.t0 SampleAdapters.manager ["AAPL"] None
    = Return out
    /\ List.length out = 7%nat
    /\ map source out
       = [GEMFIRE; GEMFIRE; GEMFIRE; GEMFIRE; GEMFIRE; MSSQL; MSSQL].
Proof. eexists. split; [reflexivity|]. split; reflexivity. Qed.

(** C8.  [is_healthy] is true exactly when the registry holds at least one
    adapter and every adapter it holds is connected; on an empty registry
    it is false. *)
Theorem is_healthy_spec (self : Manager.DataSourceManager) :
  (Manager.is_healthy self = true <->
     Manager.adapters self <> [] /\
     forall n a, In (n, a) (Manager.adapters self) -> any_connected a = true)
  /\ (Manager.adapters self = [] -> Manager.is_healthy self = false).
Proof.
  unfold Manager.is_healthy. split.
  - destruct (Manager.adapters self) as [|na l] eqn:E.
    + split; [discriminate|]. intros [Hne _]. now contradiction Hne.
    + rewrite forallb_forall. split.
      * intros Hall. split; [discriminate|].
        intros n a Hin. apply (Hall (n, a) Hin).
      * intros [_ Hall] [n a] Hin. exact (Hall n a Hin).
  - now intros ->.
Qed.

Example sample_manager_healthy :
  Manager.is_healthy SampleAdapters.manager = true.
Proof. reflexivity. Qed.

(** ** Adapters: the limit of get_latest_data *)

(** C6.  On the cache adapter the limit applies to each symbol, not to the
    call: a connected adapter asked for two symbols with a limit of three
    returns six points. *)
Theorem gemfire_get_latest_data_exceeds_limit :
  exists out,
    Gemfire.get_latest_data Sample.t0 SampleAdapters.cache
      ["AAPL"; "GOOGL"] 3 = Return out
    /\ List.length out = 6%nat
    /\ map m_symbol out = ["AAPL"; "AAPL"; "AAPL"; "GOOGL"; "GOOGL"; "GOOGL"].
Proof. eexists. split; [reflexivity|]. split; reflexivity. Qed.

Lemma for_each_singletons {X Y} (g : X -> Y) (l : list X) :
  for_each (fun x => Return [g x]) l = Return (map g l).
Proof.
  induction l as [|x l IH]; simpl; [reflexivity|]. now rewrite IH.
Qed.

Lemma for_each_returns {X Y} (f : X -> result (list Y)) (g : X -> list Y) l :
  (forall x, f x = Return (g x)) ->
  for_each f l = Return (flat_map g l).
Proof.
  intros Hf. induction l as [|x l IH]; simpl; [reflexivity|].
  now rewrite Hf, IH.
Qed.

Lemma length_flat_map_const {X Y} (g : X -> list Y) (k : nat) l :
  (forall x, List.length (g x) = k) ->
  List.length (flat_map g l) = (List.length l * k)%nat.
Proof.
  intros Hg. induction l as [|x l IH]; simpl; [reflexivity|].
  now rewrite length_app, Hg, IH.
Qed.

(** In general a connected cache adapter returns, for a limit that is not
    negative, the smaller of [limit] and five points for every symbol
    asked. *)
Lemma gemfire_get_latest_data_length now self symbols limit :
  _connected (Gemfire.g_base self) = true ->
  (0 <= limit)%Z ->
  exists out,
    Gemfire.get_latest_data now self symbols limit = Return out
    /\ List.length out
       = (List.length symbols * Nat.min (Z.to_nat limit) 5)%nat.
Proof.
  intros Hconn Hlimit. unfold Gemfire.get_latest_data. rewrite Hconn. simpl.
  set (parse := fun sym data =>
         _parse_data_point (Gemfire.g_base self) data sym
           (match dict_get "timestamp" data with
            | Some (VTime t) => t
            | _ => now
            end)).
  rewrite for_each_returns with
    (g := fun sym =>
            map (parse sym)
                (slice_to (Gemfire._get_from_cache now
                             ("market_data:" ++ sym)%string) limit)).
  - eexists. split; [reflexivity|].
    apply length_flat_map_const. intros sym.
    rewrite length_map. unfold slice_to.
    destruct (Z.leb_spec 0 limit); [|lia].
    rewrite length_firstn. reflexivity.
  - intros sym. unfold slice_to. destruct (Z.leb_spec 0 limit); [|lia].
    unfold Gemfire._get_from_cache.
    destruct (Z.to_nat limit) as [|[|[|[|[|[|n]]]]]]; reflexivity.
Qed.

(** The database adapter bounds the whole call, through [TOP limit]. *)
Lemma mssql_get_latest_data_within_limit now self symbols limit :
  (0 <= limit)%Z ->
  exists out,
    Mssql.get_latest_data now self symbols limit = Return out
    /\ (Z.of_nat (List.length out) <= limit)%Z.
Proof.
  intros Hlimit. unfold Mssql.get_latest_data, Mssql.select_top.
  destruct (_connected (Mssql.m_base self)); simpl;
    [|eexists; split; [reflexivity|simpl; lia]].
  destruct (Mssql.reachable self); simpl;
    [|eexists; split; [reflexivity|simpl; lia]].
  destruct (Z.ltb_spec limit 0); [lia|]. simpl.
  eexists; split; [reflexivity|].
  rewrite length_map, length_firstn. lia.
Qed.

(** ** Alert rules: hourly cap and cooldown *)

Section AlertFacts.
Import Alerts.
Variable utc : string -> Z -> Z.

Lemma evaluate_skip r st a now :
  passes_filters utc r a now = false \/
  under_hourly_cap r st now = false \/
  cooled_down r st now = false ->
  evaluate utc r st a now = (false, st).
Proof.
  unfold evaluate. intros [ -> | [ -> | -> ] ]; simpl;
    rewrite ?andb_false_r; reflexivity.
Qed.

Lemma evaluate_not_sent r st a now :
  fst (evaluate utc r st a now) = false ->
  snd (evaluate utc r st a now) = st.
Proof.
  unfold evaluate. destruct (_ && _ && _); simpl; [discriminate|reflexivity].
Qed.

Lemma evaluate_sent r st a now :
  fst (evaluate utc r st a now) = true ->
  snd (evaluate utc r st a now) = mkState (now :: sent st) (Some now).
Proof.
  unfold evaluate. destruct (_ && _ && _); simpl; [reflexivity|discriminate].
Qed.

(** Right after an alert, a cap of one is reached for the rest of the
    hour. *)
Lemma cap_one_reached r st t1 t2 :
  max_alerts_per_hour r = 1%Z ->
  (t2 < t1 + hour)%Z ->
  under_hourly_cap r (mkState (t1 :: sent st) (Some t1)) t2 = false.
Proof.
  intros Hmax Ht. unfold under_hourly_cap, sent_in_last_hour. simpl.
  destruct (Z.ltb_spec (t2 - hour) t1); [|lia].
  simpl List.length. rewrite Hmax. apply Z.ltb_ge. lia.
Qed.
End AlertFacts.

(** C9.  For a rule with [max_alerts_per_hour = 1], two anomalies that pass
    the rule's filters and arrive less than an hour apart give exactly one
    dispatch when no alert was sent before, and never more than one
    whatever was sent before.  For a rule with [cooldown_minutes = 15], a
    qualifying anomaly that arrives less than fifteen minutes after the
    rule's last dispatch is suppressed, whatever the hourly cap.  A rule
    that fails a check dispatches nothing and keeps its state. *)
Theorem alert_rate_limit_and_cooldown
    (utc : string -> Z -> Z) (r : Alerts.AlertRule) (st : Alerts.RuleState)
    (a1 a2 : Alerts.Anomaly) (t1 t2 : Z) :
  (Alerts.max_alerts_per_hour r = 1%Z ->
   Alerts.passes_filters utc r a1 t1 = true ->
   Alerts.passes_filters utc r a2 t2 = true ->
   (t1 <= t2 < t1 + Alerts.hour)%Z ->
   fst (Alerts.run utc r Alerts.fresh [(a1, t1); (a2, t2)]) = [(a1, t1)]
   /\ (List.length (fst (Alerts.run utc r st [(a1, t1); (a2, t2)])) <= 1)%nat)
  /\ (Alerts.cooldown_minutes r = 15%Z ->
      Alerts.last_sent st = Some t1 ->
      (t2 - t1 < 15 * Alerts.minute)%Z ->
      Alerts.evaluate utc r st a2 t2 = (false, st))
  /\ (Alerts.passes_filters utc r a1 t1 = false \/
      Alerts.under_hourly_cap r st t1 = false \/
      Alerts.cooled_down r st t1 = false ->
      Alerts.evaluate utc r st a1 t1 = (false, st))
  /\ (fst (Alerts.evaluate utc r st a1 t1) = false ->
      snd (Alerts.evaluate utc r st a1 t1) = st).
Proof.
  split; [|split; [|split]].
  - intros Hmax H1 H2 Ht. split.
    + simpl. unfold Alerts.evaluate at 1.
      rewrite H1. unfold Alerts.under_hourly_cap at 1. rewrite Hmax.
      simpl.
      rewrite (evaluate_skip utc r _ a2 t2); [reflexivity|].
      right; left.
      apply (cap_one_reached r Alerts.fresh); [assumption|lia].
    + simpl.
      destruct (Alerts.evaluate utc r st a1 t1) as [sent1 st1] eqn:E1.
      destruct sent1.
      * pose proof (evaluate_sent utc r st a1 t1) as Hs.
        rewrite E1 in Hs. simpl in Hs. rewrite (Hs eq_refl).
        rewrite (evaluate_skip utc r _ a2 t2); [simpl; lia|].
        right; left. apply cap_one_reached; [assumption|lia].
      * destruct (Alerts.evaluate utc r st1 a2 t2) as [[] st2]; simpl; lia.
  - intros Hcool Hlast Ht. apply evaluate_skip. right; right.
    unfold Alerts.cooled_down. rewrite Hlast, Hcool.
    apply Z.leb_gt. exact Ht.
  - apply evaluate_skip.
  - apply evaluate_not_sent.
Qed.

(** C9 on the sample rule: a first anomaly at [t0] and a second one ten
    minutes later. *)
Lemma alert_rate_limit_and_cooldown_witness :
  let r := Alerts.sample_rule in
  let st := Alerts.mkState [Sample.t0] (Some Sample.t0) in
  let t2 := (Sample.t0 + 10 * Alerts.minute)%Z in
  (fst (Alerts.run Alerts.eastern r Alerts.fresh
          [(Alerts.first_anomaly, Sample.t0); (Alerts.second_anomaly, t2)])
   = [(Alerts.first_anomaly, Sample.t0)]
   /\ (List.length
         (fst (Alerts.run Alerts.eastern r st
                 [(Alerts.first_anomaly, Sample.t0);
                  (Alerts.second_anomaly, t2)])) <= 1)%nat)
  /\ Alerts.evaluate Alerts.eastern r st Alerts.second_anomaly t2 = (false, st)
  /\ Alerts.evaluate Alerts.eastern r st Alerts.first_anomaly Sample.t0
     = (false, st)
  /\ snd (Alerts.evaluate Alerts.eastern r st Alerts.first_anomaly Sample.t0)
     = st.
Proof.
  destruct (alert_rate_limit_and_cooldown Alerts.eastern Alerts.sample_rule
              (Alerts.mkState [Sample.t0] (Some Sample.t0))
              Alerts.first_anomaly Alerts.second_anomaly
              Sample.t0 (Sample.t0 + 10 * Alerts.minute))
    as (Hcap & Hcool & Hskip & Hkeep).
  split; [|split; [|split]].
  - apply Hcap; [reflexivity | reflexivity | reflexivity | vm_compute].
    split; [discriminate | reflexivity].
  - apply Hcool; reflexivity.
  - apply Hskip. right; left. reflexivity.
  - apply Hkeep. reflexivity.
Defined.

(* ================================================================== *)
(** * Further properties of the code *)

(** ** TimeSeriesAnomalyModel: what a short window can never report *)

Lemma of_nat_S n : TimeSeries.of_nat (S n) == TimeSeries.of_nat n + 1.
Proof.
  unfold TimeSeries.of_nat. rewrite Nat2Z.inj_succ. unfold Z.succ.
  now rewrite inject_Z_plus.
Qed.

Lemma of_nat_nonneg n : 0 <= TimeSeries.of_nat n.
Proof.
  unfold TimeSeries.of_nat. rewrite <- (Zle_Qle 0). lia.
Qed.

Lemma Qsq_nonneg (a : Q) : 0 <= a * a.
Proof. nra. Qed.

Lemma Qsum_app l1 l2 :
  TimeSeries.Qsum (l1 ++ l2) == TimeSeries.Qsum l1 + TimeSeries.Qsum l2.
Proof.
  induction l1 as [|x l1 IH]; simpl; [lra|]. rewrite IH. lra.
Qed.

Lemma Qsum_deviations (m : Q) l :
  TimeSeries.Qsum (map (fun x => x - m) l)
  == TimeSeries.Qsum l - TimeSeries.of_nat (List.length l) * m.
Proof.
  induction l as [|x l IH]; simpl TimeSeries.Qsum; simpl List.length.
  - change (TimeSeries.of_nat 0) with 0. simpl. lra.
  - rewrite IH, of_nat_S. lra.
Qed.

(** The square of a sum of [k] numbers is at most [k] times the sum of
    their squares. *)
Lemma square_of_sum (l : list Q) :
  TimeSeries.Qsum l * TimeSeries.Qsum l
  <= TimeSeries.of_nat (List.length l)
     * TimeSeries.Qsum (map (fun a => a * a) l).
Proof.
  induction l as [|x l IH]; simpl TimeSeries.Qsum; simpl List.length.
  - change (TimeSeries.of_nat 0) with 0. simpl. lra.
  - rewrite of_nat_S.
    assert (Hs2 : 0 <= TimeSeries.Qsum (map (fun a => a * a) l)).
    { clear. induction l as [|y l IH]; simpl; [lra|]. nra. }
    pose proof (of_nat_nonneg (List.length l)) as Hk.
    assert (Hempty : TimeSeries.of_nat (List.length l) == 0 ->
                     TimeSeries.Qsum l == 0).
    { destruct l; [reflexivity|]. intros H0. exfalso.
      simpl List.length in H0. rewrite of_nat_S in H0.
      pose proof (of_nat_nonneg (List.length l)). lra. }
    revert IH Hs2 Hk Hempty.
    generalize (TimeSeries.Qsum l) as s1.
    generalize (TimeSeries.Qsum (map (fun a => a * a) l)) as s2.
    generalize (TimeSeries.of_nat (List.length l)) as k.
    intros k s2 s1 IH Hs2 Hk Hempty.
    destruct (Qlt_le_dec 0 k) as [Hpos|Hzero].
    + pose proof (Qsq_nonneg (k * x - s1)) as Hsq.
      assert (Hcross : k * (2 * x * s1) <= k * (k * (x * x) + s2)) by nra.
      assert (Hx : 2 * x * s1 <= k * (x * x) + s2).
      { apply (Qmult_le_l _ _ k); assumption. }
      nra.
    + assert (Hk0 : k == 0) by lra.
      rewrite (Hempty Hk0), Hk0. nra.
Qed.

Lemma firstn_snoc {X} (l : list X) n x :
  nth_error l n = Some x -> firstn (S n) l = firstn n l ++ [x].
Proof.
  revert l. induction n as [|n IH]; intros [|y l] H; try discriminate.
  - injection H as ->. reflexivity.
  - simpl in H. simpl. f_equal. now apply IH.
Qed.

(** A full trailing window ends with the value of the row itself. *)
Lemma trailing_ends_with_row w col idx x :
  nth_error col idx = Some x -> (1 <= w <= idx + 1)%nat ->
  exists pre,
    TimeSeries.trailing w col idx = pre ++ [x] /\
    List.length pre = (w - 1)%nat.
Proof.
  intros Hx Hw. unfold TimeSeries.trailing.
  destruct w as [|w]; [lia|].
  assert (Hnth : nth_error (skipn (idx + 1 - S w) col) w = Some x).
  { rewrite nth_error_skipn. rewrite <- Hx. f_equal. lia. }
  rewrite (firstn_snoc _ _ Hnth). eexists. split; [reflexivity|].
  rewrite length_firstn.
  assert (w < List.length (skipn (idx + 1 - S w) col))%nat
    by (apply nth_error_Some; congruence).
  lia.
Qed.

Lemma Qsum_squares_app (m : Q) pre x :
  TimeSeries.Qsum (map (fun y => (y - m) * (y - m)) (pre ++ [x]))
  == TimeSeries.Qsum (map (fun a => a * a) (map (fun y => y - m) pre))
     + (x - m) * (x - m).
Proof.
  rewrite map_app, Qsum_app, map_map. simpl. lra.
Qed.

Lemma mean_sum l m :
  TimeSeries.mean l = Some m ->
  TimeSeries.Qsum l == TimeSeries.of_nat (List.length l) * m.
Proof.
  destruct l as [|y l]; [discriminate|].
  unfold TimeSeries.mean.
  remember (TimeSeries.Qsum (y :: l)) as q.
  remember (TimeSeries.of_nat (List.length (y :: l))) as n.
  intros [= <-].
  assert (Hn : 0 < n).
  { subst n. simpl List.length. rewrite of_nat_S.
    pose proof (of_nat_nonneg (List.length l)). lra. }
  field. lra.
Qed.

(** The value of the last row of a window is at most [(n - 1) / sqrt n]
    sample deviations away from the mean of the window: with [d] its
    distance to the mean and [ss] the sum of the squared distances,
    [n * d * d <= (n - 1) * ss]. *)
Lemma last_row_deviation pre x m :
  TimeSeries.mean (pre ++ [x]) = Some m ->
  TimeSeries.of_nat (List.length (pre ++ [x])) * ((x - m) * (x - m))
  <= TimeSeries.of_nat (List.length pre)
     * TimeSeries.Qsum (map (fun y => (y - m) * (y - m)) (pre ++ [x])).
Proof.
  intros Hm.
  pose proof (mean_sum _ Hm) as Hmean.
  rewrite Qsum_squares_app.
  pose proof (square_of_sum (map (fun y => y - m) pre)) as Hcs.
  rewrite length_map, Qsum_deviations in Hcs.
  rewrite Qsum_app in Hmean. simpl TimeSeries.Qsum in Hmean.
  rewrite length_app in *. simpl List.length in *.
  replace (List.length pre + 1)%nat with (S (List.length pre)) in * by lia.
  rewrite of_nat_S in *.
  revert Hcs Hmean.
  generalize (TimeSeries.Qsum
                (map (fun a => a * a) (map (fun y => y - m) pre))) as ss.
  generalize (TimeSeries.Qsum pre) as sp.
  generalize (TimeSeries.of_nat (List.length pre)) as k.
  intros k sp ss Hcs Hmean.
  assert (Hd : sp - k * m == - (x - m)) by lra.
  rewrite Hd in Hcs. nra.
Qed.

(** Hence a z-score over a window of [w] rows never exceeds a constant [k]
    with [(w - 1)^2 <= k^2 * w]. *)
Lemma zscore_bounded w col idx x (k : Q) :
  nth_error col idx = Some x -> (w <= idx + 1)%nat ->
  TimeSeries.of_nat (w - 1) * TimeSeries.of_nat (w - 1)
    <= k * k * TimeSeries.of_nat w ->
  let win := TimeSeries.trailing w col idx in
  TimeSeries.zabs_gt
    (TimeSeries.zdiv x (TimeSeries.mean win) (TimeSeries.var win)) k = false.
Proof.
  intros Hx Hw Hk win.
  destruct w as [|w]; [reflexivity|].
  destruct (@trailing_ends_with_row (S w) col idx x Hx ltac:(lia))
    as (pre & Hwin & Hpre).
  fold win in Hwin. replace (S w - 1)%nat with w in * by lia.
  unfold TimeSeries.var.
  destruct (TimeSeries.mean win) as [m|] eqn:Hm; [|reflexivity].
  assert (Hlen : List.length win = S w)
    by (rewrite Hwin, length_app; simpl; lia).
  rewrite Hlen. replace (S w - 1)%nat with w by lia.
  destruct (Nat.leb_spec (S w) 1) as [|Hw2]; [reflexivity|].
  rewrite Hwin in Hm. pose proof (@last_row_deviation pre x m Hm) as Hdev.
  rewrite <- Hwin in Hdev. rewrite Hlen, Hpre in Hdev.
  pose proof (Qsum_squares_nonneg m win) as Hss.
  assert (Hwpos : 0 < TimeSeries.of_nat w).
  { unfold TimeSeries.of_nat. rewrite <- (Zlt_Qlt 0). lia. }
  pose proof (of_nat_S w) as HS.
  revert Hdev Hss Hk HS Hwpos.
  generalize (TimeSeries.Qsum (map (fun x0 => (x0 - m) * (x0 - m)) win))
    as ss.
  generalize (TimeSeries.of_nat (S w)) as n1.
  generalize (TimeSeries.of_nat w) as n.
  intros n n1 ss Hdev Hss Hk HS Hwpos.
  assert (Hv : 0 <= ss / n).
  { apply Qle_shift_div_l; [assumption|]. lra. }
  assert (Hssv : ss == n * (ss / n)) by (field; lra).
  unfold TimeSeries.zdiv.
  destruct (Qeq_bool (ss / n) 0) eqn:Ev.
  - apply Qeq_bool_iff in Ev.
    assert (Hd0 : (x - m) * (x - m) <= 0).
    { rewrite Hssv, Ev in Hdev. nra. }
    assert (Hd : x - m == 0).
    { destruct (Qlt_le_dec (x - m) 0); destruct (Qlt_le_dec 0 (x - m));
        try nra; lra. }
    apply Qeq_bool_iff in Hd. now rewrite Hd.
  - simpl. apply Qgtb_le.
    revert Hv Hssv. generalize (ss / n) as v. intros v Hv Hssv.
    rewrite Hssv in Hdev.
    assert (H1 : n1 * ((x - m) * (x - m)) <= n * n * v) by nra.
    assert (H2 : n * n * v <= k * k * n1 * v) by nra.
    assert (H3 : n1 * ((x - m) * (x - m)) <= n1 * (k * k * v)) by nra.
    apply (Qmult_le_l _ _ n1); [lra|assumption].
Qed.

Lemma expected_at_outcomes w sym rows column ty idx (k : Q) a :
  TimeSeries.of_nat (w - 1) * TimeSeries.of_nat (w - 1)
    <= k * k * TimeSeries.of_nat w ->
  In a (TimeSeries.expected_at w sym rows column ty idx) ->
  TimeSeries.zabs_gt (TimeSeries.z_score a) k = false.
Proof.
  intros Hk. unfold TimeSeries.expected_at.
  destruct (nth_error rows idx) as [d|] eqn:Ed; [|intros []].
  destruct (Nat.leb_spec w idx) as [Hw|Hw]; [|intros []].
  simpl. destruct (TimeSeries.zabs_gt _ 3); [|intros []].
  intros [<-|[]]. simpl.
  apply zscore_bounded; [|lia|assumption].
  now rewrite nth_error_map, Ed.
Qed.

Lemma short_window_bound w :
  (w <= 10)%nat ->
  TimeSeries.of_nat (w - 1) * TimeSeries.of_nat (w - 1)
    <= 3 * 3 * TimeSeries.of_nat w.
Proof.
  intros Hw.
  do 11 (destruct w as [|w]; [vm_compute; discriminate|]). lia.
Qed.

Lemma medium_window_bound w :
  (w <= 17)%nat ->
  TimeSeries.of_nat (w - 1) * TimeSeries.of_nat (w - 1)
    <= 4 * 4 * TimeSeries.of_nat w.
Proof.
  intros Hw.
  do 18 (destruct w as [|w]; [vm_compute; discriminate|]). lia.
Qed.

Lemma detect_ts_outcomes sort_values w data_points out a :
  TimeSeries.detect_time_series_anomalies sort_values w data_points
    = Return out ->
  In a out ->
  exists sym rows column ty idx,
    In a (TimeSeries.expected_at w sym rows column ty idx).
Proof.
  intros Hout Ha.
  destruct data_points as [|d0 rest] eqn:E; [discriminate|].
  rewrite <- E in *. clear E d0 rest.
  rewrite detect_ts_nonempty in Hout by (intros ->; discriminate Hout).
  injection Hout as <-.
  apply in_flat_map in Ha. destruct Ha as (sym & _ & Ha).
  rewrite detect_symbol_expected_ts in Ha. simpl in Ha.
  apply in_app_iff in Ha.
  destruct Ha as [Ha|Ha]; unfold TimeSeries.expected in Ha;
    apply in_flat_map in Ha; destruct Ha as (idx & _ & Ha); eauto 8.
Qed.

(** X1.  With a window of at most ten rows the z-score detector reports
    nothing, whatever the data: the window includes the row under test, so
    the row can be at most [(w - 1) / sqrt w] deviations from the window
    mean, which is below 3 up to [w = 10]. *)
Theorem short_window_reports_nothing
    (sort_values : list DataPoint -> list DataPoint)
    (window_size : nat) (data_points : list DataPoint) :
  (window_size <= 10)%nat ->
  data_points <> [] ->
  TimeSeries.detect_time_series_anomalies sort_values window_size data_points
  = Return [].
Proof.
  intros Hw Hne.
  destruct (TimeSeries.detect_time_series_anomalies sort_values window_size
              data_points) as [out|e] eqn:Hout.
  - destruct out as [|a out]; [reflexivity|]. exfalso.
    destruct (@detect_ts_outcomes _ _ _ _ a Hout (or_introl eq_refl))
      as (sym & rows & column & ty & idx & Ha).
    pose proof (@expected_at_outcomes _ _ _ _ _ _ _ _ (short_window_bound Hw) Ha)
      as Hbound.
    unfold TimeSeries.expected_at in Ha.
    destruct (nth_error rows idx); [|destruct Ha].
    destruct (_ && _) eqn:Hflag; [|destruct Ha].
    destruct Ha as [<-|[]]. simpl in Hbound.
    apply andb_true_iff in Hflag. destruct Hflag as [_ Hflag]. congruence.
  - rewrite detect_ts_nonempty in Hout by assumption. discriminate.
Qed.

Lemma short_window_reports_nothing_witness :
  TimeSeries.detect_time_series_anomalies isort 10
    (Sample.flat_then_spike 15 1000000)
  = Return [].
Proof.
  apply short_window_reports_nothing; [lia|].
  vm_compute. discriminate.
Defined.

(** X2.  With a window of at most seventeen rows no anomaly of the z-score
    detector is ever [critical]: |z| > 4 needs [(w - 1) / sqrt w > 4]. *)
Theorem critical_needs_long_window
    (sort_values : list DataPoint -> list DataPoint)
    (window_size : nat) (data_points : list DataPoint)
    (out : list TimeSeries.Anomaly) (a : TimeSeries.Anomaly) :
  (window_size <= 17)%nat ->
  TimeSeries.detect_time_series_anomalies sort_values window_size data_points
    = Return out ->
  In a out ->
  TimeSeries.severity a = high.
Proof.
  intros Hw Hout Hin.
  destruct (@detect_ts_outcomes _ _ _ _ a Hout Hin)
    as (sym & rows & column & ty & idx & Ha).
  pose proof (@expected_at_outcomes _ _ _ _ _ _ _ _ (medium_window_bound Hw) Ha)
    as Hbound.
  unfold TimeSeries.expected_at in Ha.
  destruct (nth_error rows idx); [|destruct Ha].
  destruct (_ && _); [|destruct Ha].
  destruct Ha as [<-|[]]. simpl in *. now rewrite Hbound.
Qed.

Lemma critical_needs_long_window_witness :
  let out :=
    match TimeSeries.detect_time_series_anomalies isort 12
            (Sample.flat_then_spike 12 200) with
    | Return o => o
    | Raised _ => []
    end in
  List.length out = 1%nat /\
  TimeSeries.severity
    (nth 0 out (TimeSeries.mkAnomaly "" price_zscore critical 0
                  TimeSeries.ZNaN 0 None None 0)) = high.
Proof.
  split; [reflexivity|].
  eapply (@critical_needs_long_window isort 12
            (Sample.flat_then_spike 12 200)); [lia | reflexivity |].
  vm_compute. left. reflexivity.
Defined.

(** ** MissingDataDetector: the order of the input *)

Lemma perm_filter {X} (f : X -> bool) l l' :
  Permutation l l' -> Permutation (filter f l) (filter f l').
Proof.
  induction 1 as [|x l l' _ IH|x y l|l l' l'' _ IH1 _ IH2]; simpl.
  - constructor.
  - destruct (f x); [now constructor|assumption].
  - destruct (f x), (f y); try reflexivity. apply perm_swap.
  - now transitivity (filter f l').
Qed.

Lemma reported_is_detect_symbol sort_values thr df sym :
  (forall l, Permutation (sort_values l) l) ->
  MissingData.reported sym (MissingData.detect sort_values thr df)
  = MissingData.detect_symbol sort_values thr df sym.
Proof.
  intros Hperm. unfold MissingData.reported. rewrite detect_flat_map.
  destruct (in_dec string_dec sym (map symbol df)) as [Hin|Hout].
  - apply (pick_flat_map_in MissingData.a_symbol).
    + intros s a. apply detect_symbol_symbol.
    + apply unique_NoDup.
    + now apply unique_In.
  - rewrite (pick_flat_map_out MissingData.a_symbol).
    + unfold MissingData.detect_symbol.
      rewrite rows_of_absent by assumption.
      now rewrite (perm_to_nil (Hperm [])).
    + intros s a. apply detect_symbol_symbol.
    + now rewrite unique_In.
Qed.

(** X3.  What [MissingDataDetector.detect] reports for a symbol does not
    depend on the order in which the points are given: two inputs that are
    rearrangements of each other give the same anomalies for every
    symbol. *)
Theorem missing_data_order_insensitive
    (sort_values : list DataPoint -> list DataPoint)
    (threshold_minutes : Z) (data_points data_points' : list DataPoint)
    (sym : string) :
  (forall l, Permutation (sort_values l) l) ->
  (forall l, Sorted by_time (sort_values l)) ->
  Permutation data_points data_points' ->
  MissingData.reported sym
    (MissingData.detect sort_values threshold_minutes data_points)
  = MissingData.reported sym
      (MissingData.detect sort_values threshold_minutes data_points').
Proof.
  intros Hperm Hsorted Hp.
  rewrite !reported_is_detect_symbol by assumption.
  rewrite !detect_symbol_adjacent.
  replace (map timestamp (sort_values (rows_of sym data_points')))
    with (map timestamp (sort_values (rows_of sym data_points)));
    [reflexivity|].
  apply sorted_perm_unique; try (apply sorted_map_timestamp, Hsorted).
  apply Permutation_map.
  rewrite !Hperm. now apply perm_filter.
Qed.

Lemma missing_data_order_insensitive_witness :
  MissingData.reported "AAPL"
    (MissingData.detect isort 30 Sample.gap_points)
  = MissingData.reported "AAPL"
      (MissingData.detect isort 30 (rev Sample.gap_points)).
Proof.
  apply missing_data_order_insensitive.
  - exact isort_perm.
  - exact isort_sorted.
  - apply Permutation_rev.
Defined.

(** ** BaseDataAdapter._parse_data_point *)



(** ** Python dicts *)

Lemma dict_get_set {V} (k k' : string) (v : V) (d : dict V) :
  dict_get k (dict_set k' v d)
  = if String.eqb k' k then Some v else dict_get k d.
Proof.
  induction d as [|[k0 v0] d IH]; simpl.
  - reflexivity.
  - destruct (String.eqb_spec k0 k') as [->|Hne]; simpl.
    + destruct (String.eqb k' k); reflexivity.
    + rewrite IH. destruct (String.eqb_spec k0 k) as [->|Hne'];
        [|reflexivity].
      destruct (String.eqb_spec k' k) as [->|]; [congruence|reflexivity].
Qed.

Lemma dict_set_keys {V} (k : string) (v : V) (d : dict V) :
  map fst (dict_set k v d)
  = if dict_mem k d then map fst d else map fst d ++ [k].
Proof.
  unfold dict_mem. induction d as [|[k0 v0] d IH]; simpl; [reflexivity|].
  destruct (String.eqb_spec k0 k) as [->|Hne]; simpl; [reflexivity|].
  rewrite IH. now destruct (dict_get k d).
Qed.

Lemma dict_get_In {V} (k : string) (d : dict V) :
  dict_mem k d = true <-> In k (map fst d).
Proof.
  unfold dict_mem. induction d as [|[k0 v0] d IH]; simpl.
  - split; [discriminate|tauto].
  - destruct (String.eqb_spec k0 k) as [->|Hne]; [tauto|].
    rewrite IH. intuition congruence.
Qed.

(** ** MSSQLAdapter: parsing a row *)


(** A row whose price column is NULL while its JSON payload carries a price
    comes out without a price. *)
Example mssql_null_price_hides_payload_price :
  let row := Mssql.mkRow "AAPL" Sample.t0 VNone VNone VNone VNone
               (VText "trade") (Mssql.Json [("price", VNum 150)]) in
  let dp := Mssql.parse_row SampleAdapters.database row in
  m_price dp = None /\ data_type dp = QUOTE.
Proof. split; reflexivity. Qed.

(** ** GemfireAdapter: historical data and the connection life cycle *)

Lemma In_firstn {X} (x : X) n l : In x (firstn n l) -> In x l.
Proof.
  revert l. induction n as [|n IH]; intros [|y l]; simpl; try tauto.
  intros [->|H]; [now left|right; now apply IH].
Qed.

Lemma In_slice_to {X} (x : X) l n : In x (slice_to l n) -> In x l.
Proof.
  unfold slice_to. destruct (0 <=? n)%Z; apply In_firstn.
Qed.

Lemma gemfire_latest_returns now self symbols limit :
  exists latest,
    Gemfire.get_latest_data now self symbols limit = Return latest.
Proof.
  unfold Gemfire.get_latest_data, try_except.
  destruct (if negb _ then _ else _); now eexists.
Qed.

(** X6.  [GemfireAdapter.get_historical_data] never raises.  Every point it
    returns is one that [get_latest_data] returns for the same arguments
    and lies in the closed range from [start_time] to [end_time]; for a
    limit that is not negative it returns at most [limit] points for the
    whole call; a disconnected adapter returns no point. *)
Theorem gemfire_get_historical_data_spec
    (now : Z) (self : Gemfire.GemfireAdapter) (symbols : list string)
    (start_time end_time limit : Z) :
  exists latest out,
    Gemfire.get_latest_data now self symbols limit = Return latest
    /\ GemfireOps.get_historical_data now self symbols start_time end_time
         limit = Return out
    /\ (forall dp, In dp out ->
          In dp latest /\
          (start_time <= m_timestamp dp <= end_time)%Z)
    /\ ((0 <= limit)%Z -> (Z.of_nat (List.length out) <= limit)%Z)
    /\ (_connected (Gemfire.g_base self) = false -> out = []).
Proof.
  destruct (gemfire_latest_returns now self symbols limit) as [latest Hl].
  exists latest. unfold GemfireOps.get_historical_data. rewrite Hl. simpl.
  eexists. split; [reflexivity|]. split; [reflexivity|].
  split; [|split].
  - intros dp Hin. apply In_slice_to, filter_In in Hin.
    destruct Hin as [Hin Hrange]. split; [assumption|].
    apply andb_true_iff in Hrange. lia.
  - intros Hlimit. unfold slice_to.
    destruct (Z.leb_spec 0 limit); [|lia].
    rewrite length_firstn. lia.
  - intros Hdown. unfold Gemfire.get_latest_data in Hl.
    rewrite Hdown in Hl. simpl in Hl. injection Hl as <-.
    unfold slice_to. simpl.
    destruct (0 <=? limit)%Z; [apply firstn_nil | reflexivity].
Qed.

(** The cap that [get_latest_data] lacks: the range query for two symbols
    with a limit of three returns three points. *)
Example gemfire_historical_within_limit :
  exists out,
    GemfireOps.get_historical_data Sample.t0 SampleAdapters.cache
      ["AAPL"; "GOOGL"] (Sample.t0 - Sample.hours 1) Sample.t0 3 = Return out
    /\ map m_symbol out = ["AAPL"; "AAPL"; "AAPL"].
Proof. eexists. split; reflexivity. Qed.



(** ** MSSQLAdapter: failures of a query *)


(** ** DataSourceManager: choosing the adapters to query *)

Lemma to_query_fold_lookup (reg : dict AnyAdapter) names acc n :
  dict_get n
    (fold_left (fun acc n0 => match dict_get n0 reg with
                              | Some a => dict_set n0 a acc
                              | None => acc
                              end) names acc)
  = if existsb (String.eqb n) names && dict_mem n reg
    then dict_get n reg else dict_get n acc.
Proof.
  revert acc. induction names as [|x names IH]; intros acc; simpl;
    [reflexivity|].
  rewrite IH. unfold dict_mem.
  destruct (String.eqb_spec n x) as [->|Hne]; simpl.
  - destruct (dict_get x reg) as [a|] eqn:Ex; simpl.
    + rewrite andb_true_r, dict_get_set, String.eqb_refl.
      now destruct (existsb _ names).
    + now rewrite !andb_false_r.
  - destruct (existsb (String.eqb n) names && _); [reflexivity|].
    destruct (dict_get x reg); [|reflexivity].
    rewrite dict_get_set.
    destruct (String.eqb_spec x n); [congruence|reflexivity].
Qed.

Lemma to_query_fold_keys (reg : dict AnyAdapter) names acc :
  NoDup (map fst acc) ->
  NoDup (map fst
    (fold_left (fun acc n0 => match dict_get n0 reg with
                              | Some a => dict_set n0 a acc
                              | None => acc
                              end) names acc)).
Proof.
  revert acc. induction names as [|x names IH]; intros acc Hacc; simpl;
    [assumption|].
  apply IH. destruct (dict_get x reg); [|assumption].
  rewrite dict_set_keys. destruct (dict_mem x acc) eqn:Em; [assumption|].
  apply NoDup_app; [assumption | repeat constructor; intros [] |].
  intros y Hy [<-|[]]. apply dict_get_In in Hy. congruence.
Qed.

(** X9.  Which adapters a query goes to.  With no [source_names], or with an
    empty list, every registered adapter is queried.  With a non-empty list
    the adapters queried are exactly the registered ones whose name is in
    the list, each once however often it is named; names that are not
    registered are ignored, so a list of unknown names only gives an empty
    result. *)
Theorem adapters_to_query_spec
    (self : Manager.DataSourceManager) (names : list string) :
  Manager.adapters_to_query self None = Manager.adapters self
  /\ Manager.adapters_to_query self (Some []) = Manager.adapters self
  /\ (names <> [] ->
      let chosen := Manager.adapters_to_query self (Some names) in
      (forall n, dict_get n chosen =
                 if existsb (String.eqb n) names
                 then dict_get n (Manager.adapters self) else None)
      /\ NoDup (map fst chosen)
      /\ ((forall n, In n names ->
                     dict_get n (Manager.adapters self) = None) ->
          forall now symbols,
            Manager.get_latest_data now self symbols (Some names)
            = Return [])).
Proof.
  split; [reflexivity|]. split; [reflexivity|].
  intros Hne chosen.
  assert (Hchosen : chosen =
    fold_left (fun acc n0 => match dict_get n0 (Manager.adapters self) with
                             | Some a => dict_set n0 a acc
                             | None => acc
                             end) names []).
  { unfold chosen, Manager.adapters_to_query.
    destruct names; [congruence|reflexivity]. }
  assert (Hlookup : forall n, dict_get n chosen =
                 if existsb (String.eqb n) names
                 then dict_get n (Manager.adapters self) else None).
  { intros n. rewrite Hchosen, to_query_fold_lookup. unfold dict_mem.
    destruct (existsb (String.eqb n) names); [|reflexivity].
    now destruct (dict_get n (Manager.adapters self)). }
  split; [exact Hlookup|]. split.
  - rewrite Hchosen. apply to_query_fold_keys. constructor.
  - intros Hunknown now symbols.
    assert (Hnil : chosen = []).
    { destruct chosen as [|[n a] rest] eqn:E; [reflexivity|]. exfalso.
      specialize (Hlookup n). simpl in Hlookup.
      rewrite String.eqb_refl in Hlookup.
      destruct (existsb (String.eqb n) names) eqn:Ex; [|discriminate].
      apply existsb_exists in Ex. destruct Ex as (n' & Hn' & Heq).
      apply String.eqb_eq in Heq. subst n'.
      rewrite (Hunknown n Hn') in Hlookup. discriminate. }
    unfold Manager.get_latest_data. fold chosen. now rewrite Hnil.
Qed.

Lemma adapters_to_query_witness :
  let chosen :=
    Manager.adapters_to_query SampleAdapters.manager
      (Some ["mssql_historical"; "eod_files"; "mssql_historical"]) in
  (forall n, dict_get n chosen =
             if existsb (String.eqb n)
                  ["mssql_historical"; "eod_files"; "mssql_historical"]
             then dict_get n (Manager.adapters SampleAdapters.manager)
             else None)
  /\ NoDup (map fst chosen)
  /\ map fst chosen = ["mssql_historical"].
Proof.
  destruct (adapters_to_query_spec SampleAdapters.manager
              ["mssql_historical"; "eod_files"; "mssql_historical"])
    as (_ & _ & H).
  destruct (H ltac:(discriminate)) as (Hlookup & Hkeys & _).
  split; [exact Hlookup|]. split; [exact Hkeys|reflexivity].
Defined.

(** ** DataSourceManager: health *)

Lemma forallb_count {X} (p : X -> bool) l :
  forallb p l = true <-> List.length (filter p l) = List.length l.
Proof.
  induction l as [|x l IH]; simpl; [tauto|].
  destruct (p x); simpl.
  - rewrite IH. split; [now intros ->|]. intros H. now injection H.
  - split; [discriminate|]. intros H.
    pose proof (filter_length_le p l). lia.
Qed.

(** X10.  In the report of [get_health_status], [overall_healthy] is true
    exactly when there is at least one adapter and [connected_adapters]
    equals [total_adapters]; the connected count never exceeds the total,
    and the total is the size of the registry. *)
Theorem get_health_status_counts
    (expected_symbols : string -> list string)
    (self : Manager.DataSourceManager) :
  let st := ManagerOps.get_health_status expected_symbols self in
  (ManagerOps.overall_healthy st = true <->
     (0 < ManagerOps.total_adapters st)%nat /\
     ManagerOps.connected_adapters st = ManagerOps.total_adapters st)
  /\ (ManagerOps.connected_adapters st <= ManagerOps.total_adapters st)%nat
  /\ ManagerOps.total_adapters st = List.length (Manager.adapters self)
  /\ ManagerOps.overall_healthy st = Manager.is_healthy self.
Proof.
  simpl. split; [|split; [apply filter_length_le|split; reflexivity]].
  unfold Manager.is_healthy.
  destruct (Manager.adapters self) as [|na l] eqn:E.
  - simpl. split; [discriminate|lia].
  - rewrite forallb_count. simpl List.length at 2 3. split; [|tauto].
    intros H. split; [lia|exact H].
Qed.





(** ** AnomalyMLModel: training, persistence and prediction *)

Section MLModelMore.
Import MLModel MLModelOps.
Context {Scaler Forest : Type} `{Estimators Scaler Forest}.
Implicit Type self : AnomalyMLModel Scaler Forest.

Lemma train_keeps_configuration self data :
  feature_columns (fst (train self data)) = feature_columns self /\
  contamination (fst (train self data)) = contamination self.
Proof.
  unfold train.
  destruct (prepare_features self data) as [features|e]; [|now auto].
  destruct (frame_empty features); [now auto|].
  destruct (fit_transform (scaler self) features) as [sc [scaled|e]];
    [|now auto].
  simpl. destruct (fit (model self) scaled) as [fo [[]|e]]; now auto.
Qed.

Lemma collect_spec self data_points scored :
  forall i out,
    collect self data_points i scored = Return out ->
    (List.length out <= List.length data_points - i)%nat /\
    forall a, In a out ->
      anomaly_type a = ml_detected /\
      severity a = _get_severity_from_score (anomaly_score a) /\
      features_used a = feature_columns self /\
      exists j dp, (i <= j)%nat /\ nth_error data_points j = Some dp /\
                   a_symbol a = symbol dp /\
                   data_timestamp a = timestamp dp.
Proof.
  induction scored as [|[prediction score] rest IH]; intros i out; simpl.
  - intros [= <-]. split; [simpl; lia|intros a []].
  - destruct (prediction =? -1)%Z.
    + destruct (nth_error data_points i) as [dp|] eqn:Ei; [|discriminate].
      destruct (collect self data_points (S i) rest) as [more|e] eqn:Em;
        [|discriminate].
      simpl. intros [= <-]. destruct (IH _ _ Em) as [Hlen Hall].
      assert (i < List.length data_points)%nat
        by (apply nth_error_Some; congruence).
      split; [simpl; lia|].
      intros a [<-|Ha].
      * simpl. repeat split. exists i, dp. auto.
      * destruct (Hall a Ha) as (T & S & F & j & dp' & Hj & Hn & Hs & Ht).
        repeat split; try assumption. exists j, dp'.
        repeat split; try assumption. lia.
    + intros Hc. destruct (IH _ _ Hc) as [Hlen Hall]. split; [lia|].
      intros a Ha.
      destruct (Hall a Ha) as (T & S & F & j & dp' & Hj & Hn & Hs & Ht).
      repeat split; try assumption. exists j, dp'.
      repeat split; try assumption. lia.
Qed.
End MLModelMore.

(** X12.  How [train] ends.  It returns True exactly when feature
    preparation yields a non-empty frame and both the scaler and the model
    fit it without raising; the object then holds the refitted scaler and
    model and [is_trained] is true.  Whatever the outcome, [feature_columns]
    and [contamination] are left as they were.  Training on an empty list
    returns False and changes nothing. *)
Theorem train_outcome
    {Scaler Forest} `{MLModel.Estimators Scaler Forest}
    (self : MLModel.AnomalyMLModel Scaler Forest)
    (training_data : list DataPoint) :
  let after := fst (MLModel.train self training_data) in
  MLModel.feature_columns after = MLModel.feature_columns self
  /\ MLModel.contamination after = MLModel.contamination self
  /\ (snd (MLModel.train self training_data) = true <->
      exists features scaled u,
        MLModel.prepare_features self training_data = Return features /\
        MLModel.frame_empty features = false /\
        snd (MLModel.fit_transform (MLModel.scaler self) features)
          = Return scaled /\
        snd (MLModel.fit (MLModel.model self) scaled) = Return u /\
        after =
          MLModel.mkModel (MLModel.contamination self)
            (fst (MLModel.fit (MLModel.model self) scaled))
            (fst (MLModel.fit_transform (MLModel.scaler self) features))
            true (MLModel.feature_columns self))
  /\ MLModel.train self [] = (self, false).
Proof.
  intros after.
  destruct (train_keeps_configuration self training_data) as [Hf Hc].
  split; [exact Hf|]. split; [exact Hc|]. split; [|reflexivity].
  unfold after, MLModel.train.
  destruct (MLModel.prepare_features self training_data) as [features|e].
  - destruct (MLModel.frame_empty features) eqn:Ee.
    + split; [discriminate|].
      intros (f & sc & u & [= <-] & He & _). congruence.
    + destruct (MLModel.fit_transform (MLModel.scaler self) features)
        as [sc [scaled|e]] eqn:Efit.
      * simpl.
        destruct (MLModel.fit (MLModel.model self) scaled)
          as [fo [u|e]] eqn:Emod; simpl.
        -- split; [|reflexivity]. intros _.
           exists features, scaled, u. rewrite Efit, Emod. simpl.
           repeat split. exact Ee.
        -- split; [discriminate|].
           intros (f & sc' & u & [= <-] & _ & Hsc & Hu & _).
           rewrite Efit in Hsc. simpl in Hsc. injection Hsc as <-.
           rewrite Emod in Hu. discriminate.
      * simpl. split; [discriminate|].
        intros (f & sc' & u & [= <-] & _ & Hsc & _).
        rewrite Efit in Hsc. discriminate.
  - split; [discriminate|]. intros (f & sc & u & Hp & _). discriminate.
Qed.

Example train_then_predict :
  let trained := fst (MLModel.train (MLModel.init (H := MLModel.toy) (1 # 10))
                        Sample.jump_points) in
  MLModel.is_trained trained = true /\
  MLModel.predict_anomalies trained
    [ mkPoint "AAPL" Sample.t0 (-5) 1000; mkPoint "MSFT" Sample.t0 300 10 ]
  = Return [ MLModel.mkAnomaly "AAPL" ml_detected critical Sample.t0 (-5)
               "isolation_forest"
               (MLModel.feature_columns trained) ].
Proof. split; reflexivity. Qed.

(** X13.  Saving and loading.  When [save_model] can write the file, it
    returns True, and [load_model] of that file into any model object
    returns True and leaves that object equal to the saved one in all five
    fields; files at other paths are untouched.  When the file cannot be
    written, [save_model] returns False and the files stay as they were. *)
Theorem save_then_load
    {Scaler Forest} `{MLModel.Estimators Scaler Forest}
    (writable : string -> bool)
    (self other : MLModel.AnomalyMLModel Scaler Forest)
    (fs : MLModelOps.Files) (filepath : string) :
  let saved := MLModelOps.save_model writable self fs filepath in
  (writable filepath = true ->
     snd saved = true
     /\ MLModel.load_model other (MLModelOps.joblib_load (fst saved) filepath)
        = (self, true)
     /\ forall p, p <> filepath ->
          MLModelOps.joblib_load (fst saved) p = MLModelOps.joblib_load fs p)
  /\ (writable filepath = false -> saved = (fs, false)).
Proof.
  unfold MLModelOps.save_model. split; intros Hw; rewrite Hw;
    [|reflexivity].
  simpl. split; [reflexivity|]. split.
  - unfold MLModelOps.joblib_load. rewrite dict_get_set, String.eqb_refl.
    destruct self. reflexivity.
  - intros p Hp. unfold MLModelOps.joblib_load. rewrite dict_get_set.
    destruct (String.eqb_spec filepath p); [congruence|reflexivity].
Qed.

Lemma save_then_load_witness :
  let self := fst (MLModel.train (MLModel.init (H := MLModel.toy) (1 # 10))
                     Sample.jump_points) in
  let other := MLModel.init (H := MLModel.toy) (3 # 10) in
  let saved := MLModelOps.save_model (fun _ => true) self [] "model.pkl" in
  snd saved = true
  /\ MLModel.load_model other (MLModelOps.joblib_load (fst saved) "model.pkl")
     = (self, true)
  /\ forall p, p <> "model.pkl" ->
       MLModelOps.joblib_load (fst saved) p = MLModelOps.joblib_load [] p.
Proof.
  apply (proj1 (@save_then_load _ _ MLModel.toy (fun _ => true)
                  (fst (MLModel.train (MLModel.init (1 # 10))
                          Sample.jump_points))
                  (MLModel.init (3 # 10)) [] "model.pkl")).
  reflexivity.
Defined.

(** X14.  What [predict_anomalies] can return.  It never raises.  It
    returns at most one anomaly per input point; every anomaly is of type
    [ml_detected], names the feature columns of the model, has the
    severity that its score maps to, and carries the symbol and timestamp
    of a point of the input. *)
Theorem predict_anomalies_output
    {Scaler Forest} `{MLModel.Estimators Scaler Forest}
    (self : MLModel.AnomalyMLModel Scaler Forest)
    (data_points : list DataPoint) :
  exists out,
    MLModel.predict_anomalies self data_points = Return out
    /\ (List.length out <= List.length data_points)%nat
    /\ forall a, In a out ->
         MLModel.anomaly_type a = ml_detected /\
         MLModel.severity a
           = MLModel._get_severity_from_score (MLModel.anomaly_score a) /\
         MLModel.features_used a = MLModel.feature_columns self /\
         exists dp, In dp data_points /\
                    MLModel.a_symbol a = symbol dp /\
                    MLModel.data_timestamp a = timestamp dp.
Proof.
  assert (Hnone : exists out : list MLModel.Anomaly,
    Return [] = Return out
    /\ (List.length out <= List.length data_points)%nat
    /\ forall a, In a out ->
         MLModel.anomaly_type a = ml_detected /\
         MLModel.severity a
           = MLModel._get_severity_from_score (MLModel.anomaly_score a) /\
         MLModel.features_used a = MLModel.feature_columns self /\
         exists dp, In dp data_points /\
                    MLModel.a_symbol a = symbol dp /\
                    MLModel.data_timestamp a = timestamp dp).
  { exists []. split; [reflexivity|]. split; [simpl; lia|intros a []]. }
  unfold MLModel.predict_anomalies.
  destruct (negb (MLModel.is_trained self)); [exact Hnone|].
  destruct (MLModel.prepare_features self data_points) as [features|e];
    simpl; [|exact Hnone].
  destruct (MLModel.frame_empty features); simpl; [exact Hnone|].
  destruct (MLModel.transform (MLModel.scaler self) features) as [scaled|e];
    simpl; [|exact Hnone].
  destruct (MLModel.predict (MLModel.model self) scaled) as [predictions|e];
    simpl; [|exact Hnone].
  destruct (MLModel.decision_function (MLModel.model self) scaled)
    as [scores|e]; simpl; [|exact Hnone].
  destruct (MLModel.collect self data_points 0 (combine predictions scores))
    as [out|e] eqn:Ec; simpl; [|exact Hnone].
  destruct (collect_spec _ _ _ _ Ec) as [Hlen Hall].
  exists out. split; [reflexivity|]. split; [lia|].
  intros a Ha.
  destruct (Hall a Ha) as (T & S & F & j & dp & _ & Hn & Hs & Ht).
  repeat split; try assumption. exists dp.
  split; [eapply nth_error_In; eassumption|]. now split.
Qed.

(** X15.  The severity read off a score never drops when the score does:
    for scores [s1 <= s2] the severity of [s1] is at least that of [s2] on
    the order low < medium < high < critical. *)
Theorem severity_from_score_monotone (s1 s2 : Q) :
  s1 <= s2 ->
  (Alerts.rank (MLModel._get_severity_from_score s2)
   <= Alerts.rank (MLModel._get_severity_from_score s1))%nat.
Proof.
  intros Hle. unfold MLModel._get_severity_from_score.
  destruct (Qgtb (- (5 # 10)) s1) eqn:A1;
    destruct (Qgtb (- (3 # 10)) s1) eqn:B1;
    destruct (Qgtb (- (1 # 10)) s1) eqn:C1;
    destruct (Qgtb (- (5 # 10)) s2) eqn:A2;
    destruct (Qgtb (- (3 # 10)) s2) eqn:B2;
    destruct (Qgtb (- (1 # 10)) s2) eqn:C2;
    simpl; try lia; exfalso;
    repeat match goal with
           | E : Qgtb _ _ = true |- _ => apply Qgtb_lt in E
           | E : Qgtb _ _ = false |- _ => apply Qgtb_le in E
           end; lra.
Qed.

Lemma severity_from_score_monotone_witness :
  (Alerts.rank (MLModel._get_severity_from_score (- (2 # 10)))
   <= Alerts.rank (MLModel._get_severity_from_score (- (4 # 10))))%nat.
Proof.
  apply severity_from_score_monotone. vm_compute. discriminate.
Defined.

(** ** DataSourceManager.initialize *)

Lemma dict_set_In {V} (k k0 : string) (v v0 : V) (d : dict V) :
  In (k, v) (dict_set k0 v0 d) -> (k, v) = (k0, v0) \/ In (k, v) d.
Proof.
  induction d as [|[k1 v1] d IH]; simpl.
  - intros [H|[]]. left. now symmetry.
  - destruct (String.eqb_spec k1 k0) as [->|Hne]; simpl.
    + intros [H|H]; [left; now symmetry|right; now right].
    + intros [H|H]; [right; now left|].
      destruct (IH H); [now left|right; now right].
Qed.

Section InitializeFacts.
Import ManagerInit.
Variable server_reachable : bool.
Variable server_rows : list Mssql.Row.

Let step := fun (acc : dict AnyAdapter) config =>
  match _create_adapter server_reachable server_rows config with
  | Some adapter =>
      let (a, success) := initialize_adapter config adapter in
      if success then dict_set (c_name config) a acc else acc
  | None => acc
  end.

Lemma step_cases acc config :
  (comes_up server_reachable config = true /\
   exists a, any_connected a = true /\
             step acc config = dict_set (c_name config) a acc)
  \/ (comes_up server_reachable config = false /\ step acc config = acc).
Proof.
  unfold step, comes_up, _create_adapter.
  destruct (c_type config); simpl; try (right; split; reflexivity).
  - left. split; [reflexivity|]. eexists. split; [|reflexivity]. reflexivity.
  - destruct server_reachable; simpl.
    + left. split; [reflexivity|]. eexists. split; [|reflexivity].
      reflexivity.
    + right. split; reflexivity.
Qed.

Lemma initialize_connected configs acc :
  (forall n a, In (n, a) acc -> any_connected a = true) ->
  forall n a, In (n, a) (fold_left step configs acc) ->
              any_connected a = true.
Proof.
  revert acc. induction configs as [|c configs IH]; intros acc Hacc;
    cbn [fold_left]; [assumption|].
  apply IH. intros n a Hin.
  destruct (step_cases acc c) as [(_ & a0 & Ha0 & E)|(_ & E)];
    rewrite E in Hin; [|now apply (Hacc n)].
  apply dict_set_In in Hin. destruct Hin as [[= -> ->]|Hin];
    [assumption|now apply (Hacc n)].
Qed.

Lemma initialize_names configs acc n :
  dict_mem n (fold_left step configs acc) = true <->
  dict_mem n acc = true \/
  exists c, In c configs /\ c_name c = n /\
            comes_up server_reachable c = true.
Proof.
  revert acc. induction configs as [|c configs IH]; intros acc;
    cbn [fold_left].
  - split; [auto|]. intros [H|(c & [] & _)]. exact H.
  - rewrite IH.
    destruct (step_cases acc c) as [(Hup & a0 & Ha0 & E)|(Hdown & E)];
      rewrite E.
    + unfold dict_mem at 1. rewrite dict_get_set.
      destruct (String.eqb_spec (c_name c) n) as [<-|Hne].
      * split; [intros _|auto]. right. exists c.
        split; [now left|split; [reflexivity|assumption]].
      * fold (dict_mem n acc). split.
        -- intros [Hm|(c' & Hc' & Hn & Hu)]; [now left|right].
           exists c'. split; [now right|split; assumption].
        -- intros [Hm|(c' & [<-|Hc'] & Hn & Hu)]; [now left|congruence|].
           right. exists c'. split; [assumption|split; assumption].
    + split.
      * intros [Hm|(c' & Hc' & Hn & Hu)]; [now left|right].
        exists c'. split; [now right|split; assumption].
      * intros [Hm|(c' & [<-|Hc'] & Hn & Hu)]; [now left|congruence|].
        right. exists c'. split; [assumption|split; assumption].
Qed.
End InitializeFacts.

(** X16.  What [initialize] leaves in the registry of a manager that starts
    empty.  It always returns True.  An adapter is registered under a name
    exactly when some configuration of that name is for the cache, or is
    for the database while the server can be reached; configurations of
    the types that are not implemented, and a database that cannot be
    reached, leave no adapter behind.  Every registered adapter is
    connected, so [is_healthy] holds right after [initialize] exactly when
    at least one configuration came up; with the default configurations it
    holds whether or not the database can be reached. *)
Theorem initialize_registry
    (server_reachable : bool) (server_rows : list Mssql.Row)
    (configs : list ManagerInit.DataSourceConfig) :
  let mgr := fst (ManagerInit.initialize server_reachable server_rows
                    (Manager.mkManager []) configs) in
  snd (ManagerInit.initialize server_reachable server_rows
         (Manager.mkManager []) configs) = true
  /\ (forall n,
        dict_mem n (Manager.adapters mgr) = true <->
        exists c, In c configs /\ ManagerInit.c_name c = n /\
                  ManagerInit.comes_up server_reachable c = true)
  /\ (forall n a, In (n, a) (Manager.adapters mgr) -> any_connected a = true)
  /\ (Manager.is_healthy mgr = true <->
      exists c, In c configs /\
                ManagerInit.comes_up server_reachable c = true)
  /\ Manager.is_healthy
       (fst (ManagerInit.initialize server_reachable server_rows
               (Manager.mkManager [])
               ManagerInit._load_data_source_configs)) = true.
Proof.
  intros mgr.
  assert (Hnames : forall n,
        dict_mem n (Manager.adapters mgr) = true <->
        exists c, In c configs /\ ManagerInit.c_name c = n /\
                  ManagerInit.comes_up server_reachable c = true).
  { intros n. unfold mgr. simpl.
    rewrite (initialize_names server_reachable server_rows configs [] n).
    unfold dict_mem at 1. simpl. intuition discriminate. }
  assert (Hconn : forall n a, In (n, a) (Manager.adapters mgr) ->
                              any_connected a = true).
  { unfold mgr. simpl.
    apply (initialize_connected server_reachable server_rows).
    intros n a []. }
  split; [reflexivity|]. split; [exact Hnames|]. split; [exact Hconn|].
  split.
  - unfold Manager.is_healthy. split.
    + destruct (Manager.adapters mgr) as [|[n a] l] eqn:E; [discriminate|].
      intros _.
      destruct (proj1 (Hnames n)) as (c & Hc & _ & Hup).
      { apply dict_get_In. now left. }
      now exists c.
    + intros (c & Hc & Hup).
      assert (Hm : dict_mem (ManagerInit.c_name c) (Manager.adapters mgr)
                   = true) by (apply Hnames; now exists c).
      destruct (Manager.adapters mgr) as [|na l] eqn:E; [discriminate|].
      apply forallb_forall. intros [n a] Hin. now apply (Hconn n).
  - now destruct server_reachable.
Qed.

(** ** MissingDataDetector: raising the threshold *)

(** X17.  Raising the threshold of the missing-data detector never adds an
    anomaly: every gap reported under a threshold is also reported, between
    the same two points of the same symbol, under any lower threshold. *)
Theorem missing_data_threshold_monotone
    (sort_values : list DataPoint -> list DataPoint)
    (lower higher : Z) (data_points : list DataPoint)
    (a : MissingData.Anomaly) :
  (lower <= higher)%Z ->
  In a (MissingData.detect sort_values higher data_points) ->
  exists a',
    In a' (MissingData.detect sort_values lower data_points) /\
    MissingData.a_symbol a' = MissingData.a_symbol a /\
    MissingData.last_data_time a' = MissingData.last_data_time a /\
    MissingData.next_data_time a' = MissingData.next_data_time a /\
    MissingData.d_gap_minutes a' = MissingData.d_gap_minutes a.
Proof.
  intros Hle Ha. rewrite detect_flat_map in *.
  apply in_flat_map in Ha. destruct Ha as (sym & Hsym & Ha).
  rewrite detect_symbol_adjacent in Ha. apply in_map_iff in Ha.
  destruct Ha as (pc & <- & Hpc). apply filter_In in Hpc.
  destruct Hpc as [Hpc Hgap].
  exists (MissingData.gap_anomaly lower sym pc). split; [|repeat split].
  apply in_flat_map. exists sym. split; [assumption|].
  rewrite detect_symbol_adjacent. apply in_map, filter_In.
  split; [assumption|].
  unfold MissingData.gap_exceeds in *. apply Qgtb_lt. apply Qgtb_lt in Hgap.
  apply Qle_lt_trans with (inject_Z higher); [|assumption].
  now rewrite <- Zle_Qle.
Qed.

Lemma missing_data_threshold_monotone_witness :
  exists a',
    In a' (MissingData.detect isort 30 Sample.gap_points) /\
    MissingData.a_symbol a' = "AAPL" /\
    MissingData.last_data_time a' = Sample.t0 /\
    MissingData.next_data_time a' = (Sample.t0 + Sample.hours 2)%Z /\
    MissingData.d_gap_minutes a'
    = MissingData.gap_minutes (Sample.t0 + Sample.hours 2) Sample.t0.
Proof.
  apply (@missing_data_threshold_monotone isort 30 90 Sample.gap_points
           (MissingData.gap_anomaly 90 "AAPL"
              (Sample.t0, (Sample.t0 + Sample.hours 2)%Z))).
  - lia.
  - vm_compute. left. reflexivity.
Defined.

(** ** PriceMovementDetector: the unit of the prices *)



Section ScaleFacts.
Import PriceMovement.
Variable thr c : Q.
Hypothesis c_nonzero : ~ c == 0.


End ScaleFacts.



(** ** Witnesses on the sample adapters *)

Lemma gemfire_get_historical_data_witness :
  exists latest out,
    Gemfire.get_latest_data Sample.t0 SampleAdapters.cache
      ["AAPL"; "GOOGL"] 3 = Return latest
    /\ GemfireOps.get_historical_data Sample.t0 SampleAdapters.cache
         ["AAPL"; "GOOGL"] (Sample.t0 - Sample.minute) Sample.t0 3
       = Return out
    /\ (Z.of_nat (List.length out) <= 3)%Z
    /\ List.length latest = 6%nat.
Proof.
  destruct (gemfire_get_historical_data_spec Sample.t0 SampleAdapters.cache
              ["AAPL"; "GOOGL"] (Sample.t0 - Sample.minute) Sample.t0 3)
    as (latest & out & Hl & Ho & _ & Hlimit & _).
  exists latest, out. split; [exact Hl|]. split; [exact Ho|].
  split; [apply Hlimit; lia|].
  vm_compute in Hl. injection Hl as <-. reflexivity.
Defined.


Lemma gemfire_get_latest_data_length_witness :
  exists out,
    Gemfire.get_latest_data Sample.t0 SampleAdapters.cache
      ["AAPL"; "GOOGL"; "MSFT"] 2 = Return out
    /\ List.length out = (3 * Nat.min 2 5)%nat.
Proof.
  apply (@gemfire_get_latest_data_length Sample.t0 SampleAdapters.cache
           ["AAPL"; "GOOGL"; "MSFT"] 2); [reflexivity|lia].
Defined.
